(** * Phase B compliance cross-referencing and the Magistrates' Court
      checklists: a shallow embedding of [phase_analysis/models.py],
      [phase_analysis/phase_b.py] and [victoria_magistrates/court_knowledge.py].

    Python values are modelled as follows.
    - [str] is [string]: the bytes of the UTF-8 text.  Byte-wise
      lexicographic order on UTF-8 coincides with Python's code-point order,
      so [sorted] over strings is [merge_sort String.le].
    - [str.strip()] and [str.lower()] follow the Unicode character tables,
      which are no part of the sources: they are parameters of the model
      (class [Py.Text]), known only to map the empty string to itself.
    - [List[T]] is [list T]; [Optional[T]] is [option T]; [Dict[str, T]] is
      [gmap string T]; [set] of strings is [gset string].
    - truthiness ([if x:], [bool(x)], [x or y], [x and y]) is written out per
      type in module [Py].
    - a raised [KeyError] is [None] (dictionary subscript) or [inl] of the
      exception (explicit [raise]). *)

From Stdlib Require Import String Ascii List Bool NArith.
From stdpp Require Import gmap strings list fin_maps sorting.

(** ** Python builtins used by the sources *)
Module Py.

(** [bool(s)] for a [str]. *)
Definition str_truthy (s : string) : bool :=
  match s with EmptyString => false | String _ _ => true end.

(** [bool(l)] for a list. *)
Definition list_truthy {A} (l : list A) : bool :=
  match l with [] => false | _ :: _ => true end.

(** [bool(o)] for an [Optional[str]]: [None] and the empty string are falsy. *)
Definition opt_str_truthy (o : option string) : bool :=
  match o with None => false | Some s => str_truthy s end.

(** [bool(s)] for a set. *)
Definition set_truthy (s : gset string) : bool :=
  list_truthy (elements s).

(** [sep.join(items)]. *)
Definition join (sep : string) (items : list string) : string :=
  String.concat sep items.

(** [s.strip()] and [s.lower()].  Both consult the Unicode tables
    (white space, case mappings); the model leaves them open and every
    definition that trims or lower-cases takes them from this class.  The two
    laws are all that is assumed: both methods return the empty string on the
    empty string. *)
Class Text := {
  strip : string → string;
  lower : string → string;
  strip_empty : strip EmptyString = EmptyString;
  lower_empty : lower EmptyString = EmptyString
}.

(** The two methods on ASCII text, where white space is tab, newline,
    vertical tab, form feed, carriage return, the separators 0x1c-0x1f and
    space, and the cased letters are A-Z and a-z.  [ascii_text] evaluates the
    definitions on the documents of the unit tests, whose trimmed and
    lower-cased strings are ASCII. *)
Definition ascii_isspace (c : ascii) : bool :=
  let n := N_of_ascii c in
  ((9 <=? n)%N && (n <=? 13)%N) || ((28 <=? n)%N && (n <=? 32)%N).

Fixpoint ascii_lstrip (s : string) : string :=
  match s with
  | EmptyString => EmptyString
  | String c rest => if ascii_isspace c then ascii_lstrip rest else s
  end.

Fixpoint ascii_rstrip (s : string) : string :=
  match s with
  | EmptyString => EmptyString
  | String c rest =>
      let r := ascii_rstrip rest in
      if ascii_isspace c && negb (str_truthy r) then EmptyString else String c r
  end.

Definition ascii_strip (s : string) : string := ascii_rstrip (ascii_lstrip s).

Definition ascii_lower_char (c : ascii) : ascii :=
  let n := N_of_ascii c in
  if (65 <=? n)%N && (n <=? 90)%N then ascii_of_N (n + 32) else c.

Fixpoint ascii_lower (s : string) : string :=
  match s with
  | EmptyString => EmptyString
  | String c rest => String (ascii_lower_char c) (ascii_lower rest)
  end.

Definition ascii_text : Text :=
  {| strip := ascii_strip;
     lower := ascii_lower;
     strip_empty := eq_refl;
     lower_empty := eq_refl |}.

(** [needle in hay] for two strings. *)
Fixpoint contains (needle hay : string) : bool :=
  String.prefix needle hay ||
  match hay with
  | EmptyString => false
  | String _ rest => contains needle rest
  end.

(** [sorted(s)] for a set of strings (also [sorted] of a generator over
    distinct strings): the elements in ascending order. *)
Definition sorted (s : gset string) : list string :=
  merge_sort String.le (elements s).

(** [set(items)]. *)
Definition set_of (items : list string) : gset string := list_to_set items.

(** [a ^ b] on sets. *)
Definition symmetric_difference (a b : gset string) : gset string :=
  (a ∖ b) ∪ (b ∖ a).

(** [any(f(x) for x in xs)]. *)
Definition any {A} (f : A → bool) (xs : list A) : bool := existsb f xs.

End Py.

(** ** phase_analysis/models.py *)
Module models.

Inductive ComplianceStatus := COMPLIANT | UNCLEAR | NON_COMPLIANT.

#[global] Instance ComplianceStatus_eq_dec : EqDecision ComplianceStatus.
Proof. solve_decision. Defined.

(** [ComplianceStatus.colour]: the enum value. *)
Definition colour (s : ComplianceStatus) : string :=
  match s with
  | COMPLIANT => "GREEN"
  | UNCLEAR => "YELLOW"
  | NON_COMPLIANT => "RED"
  end.

Inductive Severity := HIGH | MEDIUM | LOW.

#[global] Instance Severity_eq_dec : EqDecision Severity.
Proof. solve_decision. Defined.

Module WitnessStatement.
Record t := mk {
  name : string;
  signed : bool;
  dated : bool;
  date : option string
}.
End WitnessStatement.

Module DisclosurePackage.
Record t := mk {
  informant_statement_provided : bool;
  witness_statements : list WitnessStatement.t;
  prior_convictions_disclosed : bool;
  physical_exhibit_list_provided : bool;
  exhibits_identified : bool;
  exhibit_descriptions_complete : bool;
  disclosure_timing_compliant : option bool;
  timing_notes : option string
}.

Definition missing_mandatory_items (self : t) : list string :=
  (if negb (informant_statement_provided self) then ["informant statement"] else []) ++
  (if negb (Py.list_truthy (witness_statements self)) then ["witness statements"] else []) ++
  (if negb (prior_convictions_disclosed self) then ["prior convictions history"] else []) ++
  (if negb (physical_exhibit_list_provided self) then ["physical evidence list"] else []).

Definition unsigned_or_undated_statements (self : t) : list string :=
  map WitnessStatement.name
    (List.filter
       (fun statement =>
          negb (WitnessStatement.signed statement) || negb (WitnessStatement.dated statement))
       (witness_statements self)).
End DisclosurePackage.

Module PreliminaryTestRecord.
Record t := mk {
  statutory_authority : option string;
  authority_is_ambiguous : bool;
  reason_to_believe_detail : option string;
  directions_compliance_language : bool;
  directions_documented : bool;
  oral_directions_documented : bool;
  subject_literate : bool;
  proper_performance_indicators : list string;
  evidentiary_test_compliant : option bool;
  device_approval_number : option string;
  calibration_records : list string;
  maintenance_records : list string;
  test_time : option string;
  driving_time : option string;
  time_reference_notes : list string
}.

(** [bool(o and o.strip())] for an optional string [o]. *)
Definition nonblank {text : Py.Text} (o : option string) : bool :=
  match o with
  | None => false
  | Some s => if Py.str_truthy s then Py.str_truthy (Py.strip s) else false
  end.

Definition has_reason_to_believe {text : Py.Text} (self : t) : bool :=
  nonblank (reason_to_believe_detail self).

Definition has_statutory_authority {text : Py.Text} (self : t) : bool :=
  nonblank (statutory_authority self).

Definition has_proper_performance_indicators (self : t) : bool :=
  Py.list_truthy (proper_performance_indicators self).

(** [bool(self.calibration_records or self.maintenance_records)]: [or]
    yields its first operand when that is truthy, else its second. *)
Definition calibration_complete (self : t) : bool :=
  Py.list_truthy
    (if Py.list_truthy (calibration_records self)
     then calibration_records self
     else maintenance_records self).
End PreliminaryTestRecord.

Module HearsayEntry.
Record t := mk {
  description : string;
  exception_claimed : option string;
  exception_supported : bool;
  business_record : bool
}.
End HearsayEntry.

Module BusinessRecordEntry.
Record t := mk {
  description : string;
  exception_established : bool;
  foundation_details : option string
}.
End BusinessRecordEntry.

Module EvidenceProfile.
Record t := mk {
  hearsay_items : list HearsayEntry.t;
  business_records : list BusinessRecordEntry.t;
  hearsay_review_documented : bool;
  s137_analysis_documented : bool;
  s137_prejudice_factors : list string;
  s138_exclusion_factors : list string;
  s138_mitigation_steps : list string
}.

Definition hearsay_without_exception (self : t) : list string :=
  map HearsayEntry.description
    (List.filter
       (fun item =>
          match HearsayEntry.exception_claimed item with
          | None => true
          | Some _ => negb (HearsayEntry.exception_supported item)
          end)
       (hearsay_items self)).

Definition business_records_without_foundation (self : t) : list string :=
  map BusinessRecordEntry.description
    (List.filter
       (fun record => negb (BusinessRecordEntry.exception_established record))
       (business_records self)).

Definition has_unlawful_obtainment_risk (self : t) : bool :=
  Py.list_truthy (s138_exclusion_factors self) &&
  negb (Py.list_truthy (s138_mitigation_steps self)).
End EvidenceProfile.

Module DocumentProfile.
Record t := mk {
  name : string;
  disclosure : DisclosurePackage.t;
  preliminary_test : PreliminaryTestRecord.t;
  evidence : EvidenceProfile.t;
  statutory_references : list string;
  facts : list string;
  procedural_steps : list string;
  key_dates : gmap string string;
  terminology_issues : list string;
  typographical_issues : list string;
  contextual_gaps : list string
}.

(** [{x.strip().lower() for x in items if x.strip()}]. *)
Definition normalised {text : Py.Text} (items : list string) : gset string :=
  Py.set_of
    (map (fun x => Py.lower (Py.strip x))
       (List.filter (fun x => Py.str_truthy (Py.strip x)) items)).

Definition normalised_statutory_refs {text : Py.Text} (self : t) : gset string :=
  normalised (statutory_references self).

Definition normalised_facts {text : Py.Text} (self : t) : gset string :=
  normalised (facts self).

Definition normalised_procedures {text : Py.Text} (self : t) : gset string :=
  normalised (procedural_steps self).

Definition material_elements {text : Py.Text} (self : t) : gset string :=
  let p := preliminary_test self in
  let d := disclosure self in
  Py.set_of
    ((if PreliminaryTestRecord.has_statutory_authority p
      then ["statutory authority recorded"] else []) ++
     (if PreliminaryTestRecord.has_reason_to_believe p
      then ["reason to believe documented"] else []) ++
     (if PreliminaryTestRecord.directions_compliance_language p
      then ["55D directions language"] else []) ++
     (if PreliminaryTestRecord.directions_documented p
      then ["directions recorded"] else []) ++
     (if PreliminaryTestRecord.oral_directions_documented p
      then ["oral directions given"] else []) ++
     (if PreliminaryTestRecord.has_proper_performance_indicators p
      then ["proper performance indicators"] else []) ++
     (if Py.opt_str_truthy (PreliminaryTestRecord.device_approval_number p)
      then ["device approval number"] else []) ++
     (if PreliminaryTestRecord.calibration_complete p
      then ["calibration records"] else []) ++
     (if Py.opt_str_truthy (PreliminaryTestRecord.test_time p)
      then ["test time recorded"] else []) ++
     (if Py.opt_str_truthy (PreliminaryTestRecord.driving_time p)
      then ["driving time recorded"] else []) ++
     (if negb (Py.list_truthy (DisclosurePackage.missing_mandatory_items d))
      then ["mandatory disclosure complete"] else []) ++
     (if negb (Py.list_truthy (DisclosurePackage.unsigned_or_undated_statements d))
      then ["statements signed and dated"] else []) ++
     (if DisclosurePackage.exhibits_identified d
      then ["exhibits identified"] else []) ++
     (if DisclosurePackage.exhibit_descriptions_complete d
      then ["exhibit descriptions complete"] else []) ++
     (if negb (Py.list_truthy (EvidenceProfile.hearsay_without_exception (evidence self)))
      then ["hearsay exceptions satisfied"] else [])).
End DocumentProfile.

Module CheckStatus.
Record t := mk {
  status : ComplianceStatus;
  message : string;
  missing_items : list string
}.

(** The two-argument constructor call: [missing_items] defaults to [[]]. *)
Definition mk2 (s : ComplianceStatus) (m : string) : t := mk s m [].

Definition summary (self : t) : string :=
  if Py.list_truthy (missing_items self)
  then message self +:+ " (missing: " +:+ Py.join ", " (missing_items self) +:+ ")"
  else message self.
End CheckStatus.

Module CrossReferenceRow.
Record t := mk {
  statutory_provision : string;
  doc_a : CheckStatus.t;
  doc_b : CheckStatus.t;
  discrepancies : string;
  action_required : string
}.
End CrossReferenceRow.

Module Defect.
Record t := mk {
  document : string;
  description : string;
  severity : Severity;
  statutory_reference : option string
}.

#[global] Instance eq_dec : EqDecision t.
Proof. solve_decision. Defined.
End Defect.

Module DefectReport.
Record t := mk {
  high : list Defect.t;
  medium : list Defect.t;
  low : list Defect.t
}.

Definition empty : t := mk [] [] [].

Definition add (self : t) (defect : Defect.t) : t :=
  match Defect.severity defect with
  | HIGH => mk (high self ++ [defect]) (medium self) (low self)
  | MEDIUM => mk (high self) (medium self ++ [defect]) (low self)
  | LOW => mk (high self) (medium self) (low self ++ [defect])
  end.
End DefectReport.

Module OmissionsReport.
Record t := mk {
  elements_only_in_a : list string;
  statutory_refs_only_in_a : list string;
  facts_only_in_a : list string;
  procedures_only_in_a : list string;
  targeted_omissions : gmap string bool
}.
End OmissionsReport.

Module PhaseBReport.
Record t := mk {
  cross_reference_matrix : list CrossReferenceRow.t;
  defects : DefectReport.t;
  omissions : OmissionsReport.t
}.
End PhaseBReport.

End models.

(** ** phase_analysis/phase_b.py *)
Module phase_b.
Import models.

Module StatutoryProvision.
Record t := mk {
  key : string;
  label : string;
  checker : DocumentProfile.t → CheckStatus.t
}.
End StatutoryProvision.

Definition _disclosure_items (document : DocumentProfile.t) : CheckStatus.t :=
  let disclosure := DocumentProfile.disclosure document in
  let missing := DisclosurePackage.missing_mandatory_items disclosure in
  if Py.list_truthy missing
  then CheckStatus.mk NON_COMPLIANT "Mandatory disclosure items missing" missing
  else CheckStatus.mk2 COMPLIANT "Mandatory disclosure complete".

Definition _statement_execution (document : DocumentProfile.t) : CheckStatus.t :=
  let disclosure := DocumentProfile.disclosure document in
  let unsigned := DisclosurePackage.unsigned_or_undated_statements disclosure in
  if Py.list_truthy unsigned
  then CheckStatus.mk NON_COMPLIANT "Witness statements require signatures/dates" unsigned
  else if negb (Py.list_truthy (DisclosurePackage.witness_statements disclosure))
  then CheckStatus.mk2 UNCLEAR "No witness statements supplied"
  else CheckStatus.mk2 COMPLIANT "All witness statements executed".

Definition _disclosure_timing (document : DocumentProfile.t) : CheckStatus.t :=
  let disclosure := DocumentProfile.disclosure document in
  match DisclosurePackage.disclosure_timing_compliant disclosure with
  | Some true => CheckStatus.mk2 COMPLIANT "Disclosure served within s.186 timeframe"
  | Some false =>
      let note :=
        match DisclosurePackage.timing_notes disclosure with
        | Some n => if Py.str_truthy n then n else "timing non-compliant"
        | None => "timing non-compliant"
        end in
      CheckStatus.mk2 NON_COMPLIANT note
  | None => CheckStatus.mk2 UNCLEAR "Disclosure timing not recorded"
  end.

Definition _exhibit_identification (document : DocumentProfile.t) : CheckStatus.t :=
  let disclosure := DocumentProfile.disclosure document in
  if DisclosurePackage.exhibits_identified disclosure
  then
    if DisclosurePackage.exhibit_descriptions_complete disclosure
    then CheckStatus.mk2 COMPLIANT "Exhibits identified and described"
    else CheckStatus.mk2 UNCLEAR "Exhibits identified but descriptions incomplete"
  else if DisclosurePackage.physical_exhibit_list_provided disclosure
  then CheckStatus.mk2 NON_COMPLIANT "Exhibit list provided without identifiers"
  else CheckStatus.mk2 UNCLEAR "No exhibits disclosed".

Definition _statutory_authority {text : Py.Text} (document : DocumentProfile.t) : CheckStatus.t :=
  let preliminary := DocumentProfile.preliminary_test document in
  if PreliminaryTestRecord.has_statutory_authority preliminary &&
     negb (PreliminaryTestRecord.authority_is_ambiguous preliminary)
  then CheckStatus.mk2 COMPLIANT "Statutory authority recorded"
  else if PreliminaryTestRecord.authority_is_ambiguous preliminary &&
          PreliminaryTestRecord.has_statutory_authority preliminary
  then CheckStatus.mk2 UNCLEAR "Authority cited but basis described as ambiguous"
  else CheckStatus.mk2 NON_COMPLIANT "Statutory authority for the preliminary test absent".

Definition _reason_to_believe {text : Py.Text} (document : DocumentProfile.t) : CheckStatus.t :=
  let preliminary := DocumentProfile.preliminary_test document in
  if PreliminaryTestRecord.has_reason_to_believe preliminary
  then CheckStatus.mk2 COMPLIANT "Reason to believe articulated"
  else CheckStatus.mk2 NON_COMPLIANT "No s.49(1) reasonable belief particulars provided".

(** The literal ['"in accordance with directions" language'], whose two
    inner characters are double quotes (code 34). *)
Definition in_accordance_language : string :=
  Eval cbv in
    String (ascii_of_nat 34)
      (String.append "in accordance with directions"
         (String (ascii_of_nat 34) " language")).

Definition _directions_language (document : DocumentProfile.t) : CheckStatus.t :=
  let preliminary := DocumentProfile.preliminary_test document in
  let missing :=
    (if negb (PreliminaryTestRecord.directions_compliance_language preliminary)
     then [in_accordance_language] else []) ++
    (if negb (PreliminaryTestRecord.directions_documented preliminary)
     then ["record of directions given"] else []) in
  if negb (Py.list_truthy missing)
  then CheckStatus.mk2 COMPLIANT "Directions documented per s.55D(1)"
  else CheckStatus.mk NON_COMPLIANT "Directions compliance not established" missing.

Definition _oral_directions (document : DocumentProfile.t) : CheckStatus.t :=
  let preliminary := DocumentProfile.preliminary_test document in
  if negb (PreliminaryTestRecord.subject_literate preliminary)
  then
    if PreliminaryTestRecord.oral_directions_documented preliminary
    then CheckStatus.mk2 COMPLIANT "Oral directions provided out of caution"
    else CheckStatus.mk2 COMPLIANT "Oral directions not mandated"
  else if PreliminaryTestRecord.oral_directions_documented preliminary
  then CheckStatus.mk2 COMPLIANT "Oral directions documented for literate subject"
  else CheckStatus.mk2 NON_COMPLIANT "No record of oral directions for literate subject".

Definition _proper_performance (document : DocumentProfile.t) : CheckStatus.t :=
  let preliminary := DocumentProfile.preliminary_test document in
  let missing :=
    (if negb (PreliminaryTestRecord.has_proper_performance_indicators preliminary)
     then ["performance indicators"] else []) ++
    (if negb (Py.opt_str_truthy (PreliminaryTestRecord.device_approval_number preliminary))
     then ["device approval number"] else []) ++
    (if negb (PreliminaryTestRecord.calibration_complete preliminary)
     then ["calibration/maintenance records"] else []) in
  if negb (Py.list_truthy missing)
  then CheckStatus.mk2 COMPLIANT "Proper performance established under s.55E"
  else CheckStatus.mk NON_COMPLIANT "Proper performance information incomplete" missing.

Definition _evidentiary_test (document : DocumentProfile.t) : CheckStatus.t :=
  match PreliminaryTestRecord.evidentiary_test_compliant
          (DocumentProfile.preliminary_test document) with
  | Some true => CheckStatus.mk2 COMPLIANT "Evidentiary test requirements met"
  | Some false =>
      CheckStatus.mk2 NON_COMPLIANT "Evidentiary test departed from statutory requirements"
  | None => CheckStatus.mk2 UNCLEAR "No evidentiary test information recorded"
  end.

Definition _hearsay_flagged (document : DocumentProfile.t) : CheckStatus.t :=
  let evidence := DocumentProfile.evidence document in
  if Py.list_truthy (EvidenceProfile.hearsay_items evidence) ||
     EvidenceProfile.hearsay_review_documented evidence
  then CheckStatus.mk2 COMPLIANT "Hearsay issues identified under s.59"
  else CheckStatus.mk2 UNCLEAR "No hearsay review documented".

Definition _hearsay_exceptions (document : DocumentProfile.t) : CheckStatus.t :=
  let evidence := DocumentProfile.evidence document in
  let unsupported := EvidenceProfile.hearsay_without_exception evidence in
  if Py.list_truthy unsupported
  then CheckStatus.mk NON_COMPLIANT "Hearsay exception not demonstrated" unsupported
  else if Py.list_truthy (EvidenceProfile.hearsay_items evidence)
  then CheckStatus.mk2 COMPLIANT "Hearsay exceptions articulated"
  else CheckStatus.mk2 COMPLIANT "No hearsay evidence tendered".

Definition _business_records (document : DocumentProfile.t) : CheckStatus.t :=
  let evidence := DocumentProfile.evidence document in
  let unsupported := EvidenceProfile.business_records_without_foundation evidence in
  if Py.list_truthy unsupported
  then CheckStatus.mk NON_COMPLIANT "Business records exception unsupported" unsupported
  else if Py.list_truthy (EvidenceProfile.business_records evidence)
  then CheckStatus.mk2 COMPLIANT "Business records foundation established"
  else CheckStatus.mk2 UNCLEAR "No business records disclosed".

Definition _section_137 (document : DocumentProfile.t) : CheckStatus.t :=
  let evidence := DocumentProfile.evidence document in
  if Py.list_truthy (EvidenceProfile.s137_prejudice_factors evidence)
  then
    if EvidenceProfile.s137_analysis_documented evidence
    then CheckStatus.mk2 COMPLIANT "s.137 balancing undertaken"
    else CheckStatus.mk UNCLEAR "s.137 discretion triggered without documented balancing"
           (EvidenceProfile.s137_prejudice_factors evidence)
  else CheckStatus.mk2 COMPLIANT "No s.137 prejudice concerns raised".

Definition _section_138 (document : DocumentProfile.t) : CheckStatus.t :=
  let evidence := DocumentProfile.evidence document in
  if EvidenceProfile.has_unlawful_obtainment_risk evidence
  then CheckStatus.mk NON_COMPLIANT
         "Potentially improperly obtained evidence with no mitigation"
         (EvidenceProfile.s138_exclusion_factors evidence)
  else if Py.list_truthy (EvidenceProfile.s138_exclusion_factors evidence)
  then CheckStatus.mk UNCLEAR "Improper obtainment issues noted with mitigation"
         (EvidenceProfile.s138_exclusion_factors evidence)
  else CheckStatus.mk2 COMPLIANT "No s.138 issues identified".

Definition PROVISIONS {text : Py.Text} : list StatutoryProvision.t := [
  StatutoryProvision.mk "CPA_DISCLOSURE" "CPA 2009 Part 3.3 – Disclosure package" _disclosure_items;
  StatutoryProvision.mk "CPA_STATEMENTS" "CPA 2009 Part 3.3 – Witness statements executed" _statement_execution;
  StatutoryProvision.mk "CPA_TIMING" "CPA 2009 s.186 – Disclosure timing" _disclosure_timing;
  StatutoryProvision.mk "CPA_EXHIBITS" "CPA 2009 Part 3.3 – Exhibit identification" _exhibit_identification;
  StatutoryProvision.mk "RSA_AUTHORITY" "RSA 1986 s.49(1) – Statutory authority recorded" _statutory_authority;
  StatutoryProvision.mk "RSA_REASON" "RSA 1986 s.49(1) – Reasonable belief articulated" _reason_to_believe;
  StatutoryProvision.mk "RSA_55D1" "RSA 1986 s.55D(1) – Directions compliance" _directions_language;
  StatutoryProvision.mk "RSA_55D2" "RSA 1986 s.55D(2) – Oral directions for literate subject" _oral_directions;
  StatutoryProvision.mk "RSA_55E" "RSA 1986 s.55E – Proper performance" _proper_performance;
  StatutoryProvision.mk "RSA_55_1" "RSA 1986 s.55(1) – Evidentiary test compliance" _evidentiary_test;
  StatutoryProvision.mk "EA_59" "Evidence Act 2008 s.59 – Hearsay flagged" _hearsay_flagged;
  StatutoryProvision.mk "EA_60_69" "Evidence Act 2008 ss.60-69 – Hearsay exceptions" _hearsay_exceptions;
  StatutoryProvision.mk "EA_69" "Evidence Act 2008 s.69 – Business records foundation" _business_records;
  StatutoryProvision.mk "EA_137" "Evidence Act 2008 s.137 – Probative vs prejudicial" _section_137;
  StatutoryProvision.mk "EA_138" "Evidence Act 2008 s.138 – Improperly obtained evidence" _section_138
].

(** The dict comprehension: entries are written in registry order, a later
    entry for the same key replacing an earlier one. *)
Definition _evaluate_document {text : Py.Text} (document : DocumentProfile.t) : gmap string CheckStatus.t :=
  foldl
    (fun results provision =>
       <[StatutoryProvision.key provision :=
           StatutoryProvision.checker provision document]> results)
    ∅ PROVISIONS.

Definition _summarise_discrepancies (doc_a doc_b : CheckStatus.t) : string :=
  let parts1 :=
    if bool_decide (CheckStatus.status doc_a ≠ CheckStatus.status doc_b)
    then ["Status differs (Doc A: " +:+ colour (CheckStatus.status doc_a) +:+
          ", Doc B: " +:+ colour (CheckStatus.status doc_b) +:+ ")"]
    else [] in
  let missing_a := Py.set_of (CheckStatus.missing_items doc_a) in
  let missing_b := Py.set_of (CheckStatus.missing_items doc_b) in
  let missing_diff := Py.symmetric_difference missing_a missing_b in
  let parts :=
    parts1 ++
    (if Py.set_truthy missing_diff
     then ["Missing elements differ: " +:+ Py.join ", " (Py.sorted missing_diff)]
     else []) in
  if Py.list_truthy parts then Py.join "; " parts else "None".

Definition _action_required {text : Py.Text} (label : string) (status : CheckStatus.t) : string :=
  if bool_decide (CheckStatus.status status = COMPLIANT) then EmptyString
  else if Py.list_truthy (CheckStatus.missing_items status) then
    let requirement := Py.join ", " (CheckStatus.missing_items status) in
    let verb :=
      if bool_decide (CheckStatus.status status = NON_COMPLIANT)
      then "obtain" else "clarify" in
    label +:+ ": " +:+ verb +:+ " " +:+ requirement
  else
    let verb :=
      if bool_decide (CheckStatus.status status = NON_COMPLIANT)
      then "rectify" else "clarify" in
    label +:+ ": " +:+ verb +:+ " " +:+ Py.lower (CheckStatus.message status).

(** One iteration of the loop of [_build_cross_reference]; the two
    subscripts [results_a[provision.key]] and [results_b[provision.key]]
    raise [KeyError] on a missing key. *)
Definition cross_reference_row {text : Py.Text} (results_a results_b : gmap string CheckStatus.t)
    (provision : StatutoryProvision.t) : option CrossReferenceRow.t :=
  status_a ← results_a !! StatutoryProvision.key provision;
  status_b ← results_b !! StatutoryProvision.key provision;
  let discrepancies := _summarise_discrepancies status_a status_b in
  let actions :=
    List.filter Py.str_truthy
      [_action_required "Doc A" status_a; _action_required "Doc B" status_b] in
  Some (CrossReferenceRow.mk
          (StatutoryProvision.label provision)
          status_a status_b discrepancies
          (if Py.list_truthy actions then Py.join " | " actions else "None")).

Definition _build_cross_reference {text : Py.Text} (doc_a doc_b : DocumentProfile.t)
    : option (list CrossReferenceRow.t) :=
  let results_a := _evaluate_document doc_a in
  let results_b := _evaluate_document doc_b in
  foldl
    (fun acc provision =>
       rows ← acc;
       row ← cross_reference_row results_a results_b provision;
       Some (rows ++ [row]))
    (Some []) PROVISIONS.

Definition vague_tokens : list string :=
  ["approx"; "about"; "circa"; "unknown"; "around"].

Definition _detect_vague_temporal_references {text : Py.Text} (preliminary : PreliminaryTestRecord.t) : bool :=
  let candidates :=
    omap (fun o : option string =>
            match o with
            | Some s => if Py.str_truthy s then Some s else None
            | None => None
            end)
      [PreliminaryTestRecord.test_time preliminary;
       PreliminaryTestRecord.driving_time preliminary] in
  if existsb
       (fun entry =>
          let lowered := Py.lower entry in
          Py.any (fun token => Py.contains token lowered) vague_tokens)
       candidates
  then true
  else Py.list_truthy (PreliminaryTestRecord.time_reference_notes preliminary).

Definition core_steps : gset string :=
  {[ "vehicle stop"; "directions provided"; "test administered"; "results recorded" ]}.

(** [defects.append(Defect(...))] guarded by [if cond:]. *)
Definition defect_if (cond : bool) (d : Defect.t) : list Defect.t :=
  if cond then [d] else [].

Definition _identify_doc_defects {text : Py.Text} (document : DocumentProfile.t) : list Defect.t :=
  let name := DocumentProfile.name document in
  let prelim := DocumentProfile.preliminary_test document in
  let disclosure := DocumentProfile.disclosure document in
  let evidence := DocumentProfile.evidence document in
  let unsigned := DisclosurePackage.unsigned_or_undated_statements disclosure in
  let mandatory_missing := DisclosurePackage.missing_mandatory_items disclosure in
  let hearsay_without_exception := EvidenceProfile.hearsay_without_exception evidence in
  let normalised_steps := DocumentProfile.normalised_procedures document in
  let missing_steps :=
    Py.sorted (filter (fun step => step ∉ normalised_steps) core_steps) in
  defect_if (negb (PreliminaryTestRecord.has_statutory_authority prelim))
    (Defect.mk name "Missing statutory authority for preliminary test" HIGH
       (Some "RSA 1986 s.49(1)")) ++
  defect_if (negb (PreliminaryTestRecord.has_reason_to_believe prelim))
    (Defect.mk name "Absent reason to believe justification" HIGH
       (Some "RSA 1986 s.49(1)")) ++
  defect_if (negb (PreliminaryTestRecord.directions_documented prelim))
    (Defect.mk name "No evidence of directions given" HIGH (Some "RSA 1986 s.55D")) ++
  defect_if (negb (PreliminaryTestRecord.has_proper_performance_indicators prelim))
    (Defect.mk name "Missing proper performance indicators" HIGH
       (Some "RSA 1986 s.55E")) ++
  defect_if (Py.list_truthy unsigned)
    (Defect.mk name ("Unsigned/undated witness statements: " +:+ Py.join ", " unsigned)
       HIGH (Some "CPA 2009 Part 3.3")) ++
  defect_if (Py.list_truthy mandatory_missing)
    (Defect.mk name
       ("Missing mandatory disclosure items: " +:+ Py.join ", " mandatory_missing)
       HIGH (Some "CPA 2009 Part 3.3")) ++
  defect_if (Py.list_truthy hearsay_without_exception)
    (Defect.mk name
       ("Hearsay without exception: " +:+ Py.join ", " hearsay_without_exception)
       HIGH (Some "Evidence Act 2008")) ++
  defect_if (EvidenceProfile.has_unlawful_obtainment_risk evidence)
    (Defect.mk name "Indicators of unlawfully obtained evidence" HIGH
       (Some "Evidence Act 2008 s.138")) ++
  defect_if (_detect_vague_temporal_references prelim)
    (Defect.mk name "Vague temporal references in test chronology" MEDIUM
       (Some "RSA 1986")) ++
  defect_if (PreliminaryTestRecord.authority_is_ambiguous prelim)
    (Defect.mk name "Ambiguous authority claims" MEDIUM (Some "RSA 1986 s.49")) ++
  defect_if (Py.list_truthy missing_steps)
    (Defect.mk name
       ("Incomplete procedural description (missing: " +:+
        Py.join ", " missing_steps +:+ ")")
       MEDIUM None) ++
  defect_if (DisclosurePackage.physical_exhibit_list_provided disclosure &&
             negb (DisclosurePackage.exhibit_descriptions_complete disclosure))
    (Defect.mk name "Missing exhibit descriptions" MEDIUM (Some "CPA 2009 Part 3.3")) ++
  defect_if (Py.list_truthy (DocumentProfile.typographical_issues document))
    (Defect.mk name
       ("Typographical ambiguities: " +:+
        Py.join ", " (DocumentProfile.typographical_issues document))
       LOW None) ++
  defect_if (Py.list_truthy (DocumentProfile.terminology_issues document))
    (Defect.mk name
       ("Unclear terminology: " +:+
        Py.join ", " (DocumentProfile.terminology_issues document))
       LOW None) ++
  defect_if (Py.list_truthy (DocumentProfile.contextual_gaps document))
    (Defect.mk name
       ("Incomplete contextual details: " +:+
        Py.join ", " (DocumentProfile.contextual_gaps document))
       LOW None).

(** The defect built inside the cross-document loop of [_identify_defects]. *)
Definition inconsistent_date_defect (key date_a date_b : string) : Defect.t :=
  Defect.mk "Doc A & Doc B"
    ("Inconsistent " +:+ key +:+ " date: Doc A " +:+ date_a +:+
     " vs Doc B " +:+ date_b)
    MEDIUM None.

(** The guard [date_a and date_b and date_a != date_b]. *)
Definition dates_conflict (date_a date_b : string) : bool :=
  Py.str_truthy date_a && Py.str_truthy date_b && bool_decide (date_a ≠ date_b).

(** One iteration of the cross-document loop; each subscript
    [doc.key_dates[key]] raises [KeyError] on a missing key. *)
Definition date_step (doc_a doc_b : DocumentProfile.t)
    (acc : option DefectReport.t) (key : string) : option DefectReport.t :=
  report ← acc;
  date_a ← DocumentProfile.key_dates doc_a !! key;
  date_b ← DocumentProfile.key_dates doc_b !! key;
  Some (if dates_conflict date_a date_b
        then DefectReport.add report (inconsistent_date_defect key date_a date_b)
        else report).

Definition shared_dates (doc_a doc_b : DocumentProfile.t) : gset string :=
  dom (DocumentProfile.key_dates doc_a) ∩ dom (DocumentProfile.key_dates doc_b).

Definition _identify_defects {text : Py.Text} (doc_a doc_b : DocumentProfile.t) : option DefectReport.t :=
  let report := foldl DefectReport.add DefectReport.empty (_identify_doc_defects doc_a) in
  let report := foldl DefectReport.add report (_identify_doc_defects doc_b) in
  foldl (date_step doc_a doc_b) (Some report) (Py.sorted (shared_dates doc_a doc_b)).

Definition _targeted_omission (flag : bool) : bool := flag.

Definition _omissions {text : Py.Text} (doc_a doc_b : DocumentProfile.t) : OmissionsReport.t :=
  let elements_a := DocumentProfile.material_elements doc_a in
  let elements_b := DocumentProfile.material_elements doc_b in
  let statutory_a := DocumentProfile.normalised_statutory_refs doc_a in
  let statutory_b := DocumentProfile.normalised_statutory_refs doc_b in
  let facts_a := DocumentProfile.normalised_facts doc_a in
  let facts_b := DocumentProfile.normalised_facts doc_b in
  let steps_a := DocumentProfile.normalised_procedures doc_a in
  let steps_b := DocumentProfile.normalised_procedures doc_b in
  let pa := DocumentProfile.preliminary_test doc_a in
  let pb := DocumentProfile.preliminary_test doc_b in
  let both_times p :=
    Py.opt_str_truthy (PreliminaryTestRecord.test_time p) &&
    Py.opt_str_truthy (PreliminaryTestRecord.driving_time p) in
  let targeted : gmap string bool :=
    <["test_vs_drive_time_alignment" :=
        _targeted_omission (both_times pa && negb (both_times pb))]>
    (<["s55e_calibration_records" :=
        _targeted_omission
          (PreliminaryTestRecord.calibration_complete pa &&
           negb (PreliminaryTestRecord.calibration_complete pb))]>
    (<["s55e_device_approval_number" :=
        _targeted_omission
          (Py.opt_str_truthy (PreliminaryTestRecord.device_approval_number pa) &&
           negb (Py.opt_str_truthy (PreliminaryTestRecord.device_approval_number pb)))]>
    (<["s49_reason_to_believe" :=
        _targeted_omission
          (PreliminaryTestRecord.has_reason_to_believe pa &&
           negb (PreliminaryTestRecord.has_reason_to_believe pb))]>
    (<["s55d_in_accordance_language" :=
        _targeted_omission
          (PreliminaryTestRecord.directions_compliance_language pa &&
           negb (PreliminaryTestRecord.directions_compliance_language pb))]> ∅)))) in
  OmissionsReport.mk
    (Py.sorted (elements_a ∖ elements_b))
    (Py.sorted (statutory_a ∖ statutory_b))
    (Py.sorted (facts_a ∖ facts_b))
    (Py.sorted (steps_a ∖ steps_b))
    targeted.

Definition build_phase_b_report {text : Py.Text} (doc_a doc_b : DocumentProfile.t)
    : option PhaseBReport.t :=
  matrix ← _build_cross_reference doc_a doc_b;
  defects ← _identify_defects doc_a doc_b;
  Some (PhaseBReport.mk matrix defects (_omissions doc_a doc_b)).

End phase_b.

(** ** victoria_magistrates/court_knowledge.py *)
Module court_knowledge.

(** A raised exception, with the message it carries. *)
Inductive exn := KeyError (message : string).

Module ChecklistItem.
Record t := mk {
  key : string;
  description : string;
  statute : option string;
  notes : option string
}.
End ChecklistItem.

Module ProcedureStage.
Record t := mk {
  name : string;
  items : list ChecklistItem.t
}.
End ProcedureStage.

Definition CONTEST_MENTION_STAGE : ProcedureStage.t :=
  ProcedureStage.mk "contest_mention" [
    ChecklistItem.mk "charge_sheet_filed" "Prosecution filed charge sheet"
      (Some "Criminal Procedure Act 2009 (Vic) s.6") None;
    ChecklistItem.mk "disclosure_provided_in_time" "Disclosure provided within timeframes"
      (Some "Criminal Procedure Act 2009 (Vic) s.186") None;
    ChecklistItem.mk "defence_plea_indicated" "Defence indicated plea" None None;
    ChecklistItem.mk "defence_notice_of_defences" "Defence provided notice of defences"
      (Some "Criminal Procedure Act 2009 (Vic) s.185") None
  ].

Definition SUMMARY_CASE_CONFERENCE : ProcedureStage.t :=
  ProcedureStage.mk "summary_case_conference" [
    ChecklistItem.mk "issues_identified" "Issues identified and narrowed" None None;
    ChecklistItem.mk "admissions_made" "Admissions made" None None;
    ChecklistItem.mk "disclosure_complete" "Disclosure complete" None None
  ].

Definition SUMMARY_HEARING_STAGE : ProcedureStage.t :=
  ProcedureStage.mk "summary_hearing" [
    ChecklistItem.mk "prosecution_case_outline" "Prosecution case outline filed" None None;
    ChecklistItem.mk "witness_availability_confirmed" "Witness availability confirmed" None None;
    ChecklistItem.mk "voir_dire_foreshadowed" "Voir dire applications foreshadowed" None None
  ].

(** [not bool(provided.get(item.key))]: an absent key reads as [None]. *)
Definition not_provided (provided : gmap string bool) (item : ChecklistItem.t) : bool :=
  negb (default false (provided !! ChecklistItem.key item)).

Module MagistratesCourtProcedureChecker.
Record t := mk {
  stages : gmap string ProcedureStage.t
}.

Definition __init__ : t :=
  mk (foldl (fun d stage => <[ProcedureStage.name stage := stage]> d) ∅
        [CONTEST_MENTION_STAGE; SUMMARY_CASE_CONFERENCE; SUMMARY_HEARING_STAGE]).

Definition evaluate_stage (self : t) (stage_name : string)
    (provided : gmap string bool) : exn + list ChecklistItem.t :=
  if bool_decide (stage_name ∉ dom (stages self))
  then inl (KeyError ("Unknown procedure stage: " +:+ stage_name))
  else
    match stages self !! stage_name with
    | None => inl (KeyError stage_name)
    | Some stage => inr (List.filter (not_provided provided) (ProcedureStage.items stage))
    end.

(** [build_report]: one entry per stage of [self.stages];
    [case_data.get(name, {})] reads an absent stage as the empty mapping. *)
Definition build_report (self : t) (case_data : gmap string (gmap string bool))
    : gmap string (list ChecklistItem.t) :=
  map_imap
    (fun name stage =>
       let provided_stage_data := default ∅ (case_data !! name) in
       Some (List.filter (not_provided provided_stage_data) (ProcedureStage.items stage)))
    (stages self).
End MagistratesCourtProcedureChecker.

(** The two item descriptions that hold double quotes (code 34). *)
Definition officer_had_reason_to_believe : string :=
  Eval cbv in
    String.append "Officer had "
      (String (ascii_of_nat 34)
         (String.append "reason to believe" (String (ascii_of_nat 34) EmptyString))).

Definition test_in_accordance_with_directions : string :=
  Eval cbv in
    String.append "Test "
      (String (ascii_of_nat 34)
         (String.append "in accordance with directions"
            (String (ascii_of_nat 34) EmptyString))).

Module RoadSafetyActChecklist.
Record t := mk {
  preliminary_items : list ChecklistItem.t;
  evidentiary_items : list ChecklistItem.t
}.

Definition __init__ : t :=
  mk
    [ChecklistItem.mk "prelim_reasonable_belief" officer_had_reason_to_believe
       (Some "Road Safety Act 1986 (Vic) s.49")
       (Some "Document the observable indicators supporting belief.");
     ChecklistItem.mk "prelim_belief_indicators" "Belief based on specified indicators"
       (Some "Road Safety Act 1986 (Vic) s.49(1)(a)-(h)") None;
     ChecklistItem.mk "prelim_authorised_device" "Preliminary test authorised device"
       (Some "Road Safety Act 1986 (Vic) s.49") None;
     ChecklistItem.mk "prelim_directions_followed" test_in_accordance_with_directions
       (Some "Road Safety Act 1986 (Vic) s.55D(1)") None;
     ChecklistItem.mk "prelim_directions_given"
       "Directions given (oral if literate, written if not)"
       (Some "Road Safety Act 1986 (Vic) s.55D(2)") None;
     ChecklistItem.mk "prelim_proper_performance_device_approved" "Device approved for use"
       (Some "Road Safety Act 1986 (Vic) s.55E") None;
     ChecklistItem.mk "prelim_proper_performance_used_as_designed" "Device used as designed"
       (Some "Road Safety Act 1986 (Vic) s.55E") None;
     ChecklistItem.mk "prelim_device_working_order" "Device in working order"
       (Some "Road Safety Act 1986 (Vic) s.55E") None;
     ChecklistItem.mk "prelim_device_maintained" "Device properly maintained"
       (Some "Road Safety Act 1986 (Vic) s.55E") None;
     ChecklistItem.mk "prelim_result_positive" "Result indicated presence of alcohol/drug"
       (Some "Road Safety Act 1986 (Vic) s.49") None]
    [ChecklistItem.mk "evidentiary_location_approved" "Conducted at approved location"
       (Some "Road Safety Act 1986 (Vic) s.55") None;
     ChecklistItem.mk "evidentiary_device_approved" "Approved device used"
       (Some "Road Safety Act 1986 (Vic) s.55") None;
     ChecklistItem.mk "evidentiary_proper_performance" "Proper performance established"
       (Some "Road Safety Act 1986 (Vic) s.55E") None;
     ChecklistItem.mk "evidentiary_certificate_completed" "Certificate completed"
       (Some "Road Safety Act 1986 (Vic) s.48") None].

Definition evaluate_preliminary (self : t) (data : gmap string bool)
    : list ChecklistItem.t :=
  List.filter (not_provided data) (preliminary_items self).

Definition evaluate_evidentiary (self : t) (data : gmap string bool)
    : list ChecklistItem.t :=
  List.filter (not_provided data) (evidentiary_items self).
End RoadSafetyActChecklist.

Definition DISCLOSURE_COMPLIANCE_MATRIX : gmap string (list ChecklistItem.t) :=
  <["defence" := [
      ChecklistItem.mk "alibi_notice" "Alibi notice (if applicable)"
        (Some "Criminal Procedure Act 2009 (Vic) s.185") None;
      ChecklistItem.mk "expert_evidence_notice" "Expert evidence notice"
        (Some "Criminal Procedure Act 2009 (Vic) s.185") None;
      ChecklistItem.mk "defence_witnesses" "Witnesses to be called"
        (Some "Criminal Procedure Act 2009 (Vic) s.185") None;
      ChecklistItem.mk "defence_timing" "Timing compliance"
        (Some "Criminal Procedure Act 2009 (Vic) s.185") None
    ]]>
  (<["prosecution" := [
      ChecklistItem.mk "informant_statement" "Copy of informant's statement"
        (Some "Criminal Procedure Act 2009 (Vic) s.187") None;
      ChecklistItem.mk "witness_statements" "Copies of all witness statements"
        (Some "Criminal Procedure Act 2009 (Vic) s.187") None;
      ChecklistItem.mk "exhibit_list" "List of exhibits"
        (Some "Criminal Procedure Act 2009 (Vic) s.187") None;
      ChecklistItem.mk "accused_priors" "Accused's prior convictions"
        (Some "Criminal Procedure Act 2009 (Vic) s.187") None;
      ChecklistItem.mk "exculpatory_material" "Any exculpatory material"
        (Some "Criminal Procedure Act 2009 (Vic) s.187") None;
      ChecklistItem.mk "prosecution_timing" "Timing compliance"
        (Some "Criminal Procedure Act 2009 (Vic) s.186") None
    ]]> ∅).

Definition evaluate_disclosure_section (section : string)
    (provided : gmap string bool) : exn + list ChecklistItem.t :=
  if bool_decide (section ∉ dom DISCLOSURE_COMPLIANCE_MATRIX)
  then inl (KeyError ("Unknown disclosure section: " +:+ section))
  else
    match DISCLOSURE_COMPLIANCE_MATRIX !! section with
    | None => inl (KeyError section)
    | Some items => inr (List.filter (not_provided provided) items)
    end.

(** One entry of the outcome log, with the keys [record_outcome] writes. *)
Module Outcome.
Record t := mk {
  defect_type : string;
  result : string;
  timestamp : string;
  arguments_accepted : list string;
  arguments_rejected : list string;
  judicial_response : option string;
  remediation_strategy : option string;
  notes : option string
}.

#[global] Instance eq_dec : EqDecision t.
Proof. solve_decision. Defined.
End Outcome.

(** [OutcomeTracker].  The JSON file at [storage_path] is modelled by the
    list of entries under its ["outcomes"] key ([None] while the file does
    not exist); every method takes the file and, when it writes, returns the
    new file.  The clock read by [record_outcome] is an argument. *)
Module OutcomeTracker.

Definition _read_outcomes (file : list Outcome.t) : list Outcome.t := file.

Definition _write_outcomes (outcomes : list Outcome.t) : list Outcome.t := outcomes.

(** [__init__]: an existing file is left alone, a missing one is created
    with no outcomes. *)
Definition __init__ (file : option (list Outcome.t)) : list Outcome.t :=
  match file with
  | Some outcomes => outcomes
  | None => _write_outcomes []
  end.

(** [record_outcome]: the new file and the returned entry;
    [list(arguments or [])] reads [None] as the empty list. *)
Definition record_outcome (file : list Outcome.t) (now : string)
    (defect_type result : string)
    (arguments_accepted arguments_rejected : option (list string))
    (judicial_response remediation_strategy notes : option string)
    : list Outcome.t * Outcome.t :=
  let outcomes := _read_outcomes file in
  let entry :=
    Outcome.mk defect_type result now
      (default [] arguments_accepted) (default [] arguments_rejected)
      judicial_response remediation_strategy notes in
  (_write_outcomes (outcomes ++ [entry]), entry).

Definition get_outcomes_for_defect (file : list Outcome.t) (defect_type : string)
    : list Outcome.t :=
  List.filter
    (fun outcome => bool_decide (Outcome.defect_type outcome = defect_type))
    (_read_outcomes file).

(** One iteration of the loop of [summarise_results]: the two [setdefault]
    calls and the increment. *)
Definition count_outcome (summary : gmap string (gmap string nat))
    (outcome : Outcome.t) : gmap string (gmap string nat) :=
  let defect := Outcome.defect_type outcome in
  let result := Outcome.result outcome in
  let inner := default ∅ (summary !! defect) in
  let count := default 0 (inner !! result) in
  <[defect := <[result := count + 1]> inner]> summary.

Definition summarise_results (file : list Outcome.t) : gmap string (gmap string nat) :=
  foldl count_outcome ∅ (_read_outcomes file).
End OutcomeTracker.

End court_knowledge.

(** ** The documents of [tests/test_phase_b.py] *)
Module fixtures.
Import models.

Definition doc_a : DocumentProfile.t :=
  DocumentProfile.mk "Doc A"
    (DisclosurePackage.mk true
       [WitnessStatement.mk "Constable Lee" true true (Some "2024-05-01");
        WitnessStatement.mk "Witness Patel" true true (Some "2024-05-02")]
       true true true true (Some true) (Some "Served within statutory timeframe"))
    (PreliminaryTestRecord.mk (Some "RSA 1986 s.55(1)") false
       (Some "Smelt alcohol and observed lane weaving")
       true true true true
       ["Mouthpiece replaced"; "Device warmed"]
       (Some true) (Some "AS12345")
       ["Calibration certificate 2024-04-01"]
       ["Maintenance log 2024-03-20"]
       (Some "2024-05-10 22:15") (Some "2024-05-10 21:55") [])
    (EvidenceProfile.mk
       [HearsayEntry.mk "Bystander statement" (Some "s.65") true false]
       [BusinessRecordEntry.mk "Breathalyser maintenance log" true
          (Some "Certified by custodian")]
       true true ["Minimal prejudice"] [] [])
    ["CPA 2009 s.186"; "RSA 1986 s.55D"; "Evidence Act 2008 s.69"]
    ["Driver admitted consuming alcohol"; "Officer observed weaving"]
    ["Vehicle stop"; "Directions provided"; "Test administered"; "Results recorded"]
    (<["test" := "2024-05-10"]> (<["offence" := "2024-05-10"]> ∅))
    [] [] [].

Definition doc_b : DocumentProfile.t :=
  DocumentProfile.mk "Doc B"
    (DisclosurePackage.mk false
       [WitnessStatement.mk "Constable Lee" false true None]
       false true false false (Some false) (Some "Served five days late"))
    (PreliminaryTestRecord.mk None true (Some EmptyString)
       false false false true [] None None [] []
       (Some "Approx 22:00") None ["Officer unsure of driving time"])
    (EvidenceProfile.mk
       [HearsayEntry.mk "Neighbour recount" None false false]
       [BusinessRecordEntry.mk "Maintenance log" false None]
       false false
       ["Highly prejudicial character evidence"] ["Failure to caution"] [])
    ["CPA 2009"]
    ["Driver admitted consuming alcohol"]
    ["Vehicle stop"]
    (<["offence" := "2024-05-11"]> ∅)
    ["Reference to 'sample' undefined"]
    ["Date recorded as 2024-05-0"]
    ["No chain of custody narrative"].

(** A profile with nothing disclosed, tendered or recorded. *)
Definition blank : DocumentProfile.t :=
  DocumentProfile.mk "Blank"
    (DisclosurePackage.mk false [] false false false false None None)
    (PreliminaryTestRecord.mk None false None false false false true [] None None
       [] [] None None [])
    (EvidenceProfile.mk [] [] false false [] [] [])
    [] [] [] ∅ [] [] [].

(** [doc_a] with its statutory authority flagged as ambiguous. *)
Definition doc_ambiguous : DocumentProfile.t :=
  let d := doc_a in
  let p := DocumentProfile.preliminary_test d in
  DocumentProfile.mk "Doc ambiguous"
    (DocumentProfile.disclosure d)
    (PreliminaryTestRecord.mk
       (PreliminaryTestRecord.statutory_authority p) true
       (PreliminaryTestRecord.reason_to_believe_detail p)
       (PreliminaryTestRecord.directions_compliance_language p)
       (PreliminaryTestRecord.directions_documented p)
       (PreliminaryTestRecord.oral_directions_documented p)
       (PreliminaryTestRecord.subject_literate p)
       (PreliminaryTestRecord.proper_performance_indicators p)
       (PreliminaryTestRecord.evidentiary_test_compliant p)
       (PreliminaryTestRecord.device_approval_number p)
       (PreliminaryTestRecord.calibration_records p)
       (PreliminaryTestRecord.maintenance_records p)
       (PreliminaryTestRecord.test_time p)
       (PreliminaryTestRecord.driving_time p)
       (PreliminaryTestRecord.time_reference_notes p))
    (DocumentProfile.evidence d)
    (DocumentProfile.statutory_references d)
    (DocumentProfile.facts d)
    (DocumentProfile.procedural_steps d)
    (DocumentProfile.key_dates d)
    [] [] [].

(** Preliminary-test records holding only calibration records, and only
    maintenance records. *)
Definition calibration_only : PreliminaryTestRecord.t :=
  PreliminaryTestRecord.mk None false None false false false true [] None None
    ["Calibration certificate 2024-04-01"] [] None None [].

Definition maintenance_only : PreliminaryTestRecord.t :=
  PreliminaryTestRecord.mk None false None false false false true [] None None
    [] ["Maintenance log 2024-03-20"] None None [].

(** Two documents whose key-dates mappings share the keys ["k"] and
    ["k date: Doc A 1"]. *)
Definition with_key_dates (name : string) (dates : gmap string string)
    : DocumentProfile.t :=
  DocumentProfile.mk name
    (DocumentProfile.disclosure doc_a)
    (DocumentProfile.preliminary_test doc_a)
    (DocumentProfile.evidence doc_a)
    (DocumentProfile.statutory_references doc_a)
    (DocumentProfile.facts doc_a)
    (DocumentProfile.procedural_steps doc_a)
    dates [] [] [].

Definition overlap_a : DocumentProfile.t :=
  with_key_dates "Doc A"
    (<["k date: Doc A 1" := "2"]> (<["k" := "1 date: Doc A 2"]> ∅)).

Definition overlap_b : DocumentProfile.t :=
  with_key_dates "Doc B"
    (<["k date: Doc A 1" := "3"]> (<["k" := "3"]> ∅)).

End fixtures.

(** ** Vocabulary of the stated properties *)
Import models phase_b.

(** The registry keys and labels, in declaration order. *)
Definition registry_keys {text : Py.Text} : list string := map StatutoryProvision.key PROVISIONS.
Definition registry_labels {text : Py.Text} : list string := map StatutoryProvision.label PROVISIONS.

(** The stage and section names the checklists know. *)
Definition known_stage_names : list string :=
  ["contest_mention"; "summary_case_conference"; "summary_hearing"].
Definition known_section_names : list string := ["prosecution"; "defence"].

(** A checklist item is missing when the caller's mapping does not mark its
    key as provided. *)
Definition is_missing (provided : gmap string bool)
    (item : court_knowledge.ChecklistItem.t) : Prop :=
  provided !! court_knowledge.ChecklistItem.key item ≠ Some true.

(** The defects of a list that carry a given severity, in order. *)
Definition of_severity (s : Severity) (defects : list Defect.t) : list Defect.t :=
  filter (fun d => Defect.severity d = s) defects.

(** What the cross-document pass emits for one key: the date defect when
    both documents hold the key with conflicting values, nothing otherwise. *)
Definition date_defects_for (doc_a doc_b : DocumentProfile.t) (key : string)
    : list Defect.t :=
  match DocumentProfile.key_dates doc_a !! key,
        DocumentProfile.key_dates doc_b !! key with
  | Some date_a, Some date_b =>
      if dates_conflict date_a date_b
      then [inconsistent_date_defect key date_a date_b]
      else []
  | _, _ => []
  end.

(** How many entries of a defect list equal a given defect. *)
Definition occurrences (d : Defect.t) (defects : list Defect.t) : nat :=
  length (filter (fun x => x = d) defects).

(** The status-mismatch sentence, rendered with the colour codes. *)
Definition status_mismatch (status_a status_b : CheckStatus.t) : string :=
  "Status differs (Doc A: " +:+ colour (CheckStatus.status status_a) +:+
  ", Doc B: " +:+ colour (CheckStatus.status status_b) +:+ ")".

(** What the [discrepancies] text of a row is said to be, given the two
    per-document results and the list [diff] of differing missing items. *)
Definition discrepancies_described (status_a status_b : CheckStatus.t)
    (diff : list string) (text : string) : Prop :=
  let same := CheckStatus.status status_a = CheckStatus.status status_b in
  let missing := "Missing elements differ: " +:+ Py.join ", " diff in
  (text = "None" ↔ same ∧ diff = []) ∧
  (¬ same → diff = [] → text = status_mismatch status_a status_b) ∧
  (same → diff ≠ [] → text = missing) ∧
  (¬ same → diff ≠ [] →
   text = status_mismatch status_a status_b +:+ "; " +:+ missing).

(** [diff] is the sorted symmetric difference of two lists read as sets:
    ascending, without repetition, holding exactly the items that occur in
    one list and not in the other. *)
Definition sorted_symmetric_difference (items_a items_b diff : list string) : Prop :=
  StronglySorted String.le diff ∧
  NoDup diff ∧
  ∀ x, x ∈ diff ↔ (x ∈ items_a ∧ x ∉ items_b) ∨ (x ∈ items_b ∧ x ∉ items_a).

(** Every defect of a report, whatever its severity. *)
Definition all_defects (report : DefectReport.t) : list Defect.t :=
  DefectReport.high report ++ DefectReport.medium report ++ DefectReport.low report.

(** The four mandatory disclosure items and the three proper-performance
    items, in the order the code reports them. *)
Definition mandatory_labels : list string :=
  ["informant statement"; "witness statements"; "prior convictions history";
   "physical evidence list"].

Definition performance_labels : list string :=
  ["performance indicators"; "device approval number";
   "calibration/maintenance records"].

(** An optional string holds text: it is present and [strip] leaves
    something of it. *)
Definition holds_text {text : Py.Text} (o : option string) : Prop :=
  ∃ s, o = Some s ∧ Py.strip s ≠ EmptyString.

(** [x] is the normal form [item.strip().lower()] of an entry of [items]
    that [strip] does not trim to the empty string. *)
Definition normal_form_in {text : Py.Text} (items : list string) (x : string) : Prop :=
  ∃ item, item ∈ items ∧ Py.strip item ≠ EmptyString ∧ x = Py.lower (Py.strip item).

(** Both the test time and the driving time of a record are non-empty. *)
Definition both_times_recorded (p : PreliminaryTestRecord.t) : Prop :=
  Py.opt_str_truthy (PreliminaryTestRecord.test_time p) = true ∧
  Py.opt_str_truthy (PreliminaryTestRecord.driving_time p) = true.

(** The names of the five targeted-omission probes. *)
Definition probe_names : list string :=
  ["s55d_in_accordance_language"; "s49_reason_to_believe";
   "s55e_device_approval_number"; "s55e_calibration_records";
   "test_vs_drive_time_alignment"].

(** The count a summary holds for a defect type and a result, if any. *)
Definition tally (summary : gmap string (gmap string nat)) (defect result : string)
    : option nat :=
  summary !! defect ≫= fun inner => inner !! result.

(** The outcomes of a log that carry a given defect type and result. *)
Definition outcomes_with (defect result : string)
    (file : list court_knowledge.Outcome.t) : list court_knowledge.Outcome.t :=
  filter
    (fun outcome =>
       court_knowledge.Outcome.defect_type outcome = defect ∧
       court_knowledge.Outcome.result outcome = result)
    file.

(** * Properties *)

(** ** Truthiness of the modelled builtins *)
Section truthiness.
Context {A : Type}.
Implicit Types l : list A.

Lemma list_truthy_true l : Py.list_truthy l = true ↔ l ≠ [].
Proof. destruct l; simpl; split; congruence. Qed.

Lemma str_truthy_true (s : string) : Py.str_truthy s = true ↔ s ≠ EmptyString.
Proof. destruct s; simpl; split; congruence. Qed.

End truthiness.

(** ** The provision registry and the per-document evaluation *)

Lemma registry_keys_NoDup {text : Py.Text} : NoDup registry_keys.
Proof. apply (bool_decide_unpack (NoDup registry_keys)). vm_compute. reflexivity. Qed.

(** Writing the entries of a duplicate-free registry in order gives a
    dictionary that maps each key to its entry's value and has no other key. *)
Lemma dict_comprehension_lookup {V} (f : StatutoryProvision.t → V)
    (ps : list StatutoryProvision.t) (init : gmap string V) (k : string) :
  NoDup (map StatutoryProvision.key ps) →
  foldl (fun d p => <[StatutoryProvision.key p := f p]> d) init ps !! k =
    match List.find (fun p => bool_decide (StatutoryProvision.key p = k)) ps with
    | Some p => Some (f p)
    | None => init !! k
    end.
Proof.
  revert init. induction ps as [|p ps IH]; intros init Hnd; simpl; [done|].
  apply NoDup_cons in Hnd as [Hp Hnd]. rewrite IH by done.
  case_bool_decide as Hk.
  - subst k.
    destruct (List.find _ ps) as [q|] eqn:Hq.
    + apply find_some in Hq as [Hin Heq]. apply bool_decide_eq_true_1 in Heq.
      exfalso. apply Hp. rewrite <- Heq. apply list_elem_of_fmap_2.
      by apply list_elem_of_In.
    + by rewrite lookup_insert_eq.
  - destruct (List.find _ ps); [done|]. by rewrite lookup_insert_ne.
Qed.

Lemma evaluate_document_lookup {text : Py.Text} (document : DocumentProfile.t) (k : string) :
  _evaluate_document document !! k =
    (fun p => StatutoryProvision.checker p document) <$>
      List.find (fun p => bool_decide (StatutoryProvision.key p = k)) PROVISIONS.
Proof.
  unfold _evaluate_document.
  rewrite (dict_comprehension_lookup (fun p => StatutoryProvision.checker p document))
    by apply registry_keys_NoDup.
  by destruct (List.find _ PROVISIONS).
Qed.

Lemma evaluate_document_provision {text : Py.Text} (document : DocumentProfile.t) (p : StatutoryProvision.t) :
  p ∈ PROVISIONS →
  _evaluate_document document !! StatutoryProvision.key p =
    Some (StatutoryProvision.checker p document).
Proof.
  intros Hp. rewrite evaluate_document_lookup.
  unfold PROVISIONS in Hp.
  repeat (apply elem_of_cons in Hp as [->|Hp]; [reflexivity|]).
  by apply elem_of_nil in Hp.
Qed.

(** ** Single evaluators *)

Lemma without_foundation_truthy (evidence : EvidenceProfile.t) :
  Py.list_truthy (EvidenceProfile.business_records_without_foundation evidence) = true ↔
  ∃ record, record ∈ EvidenceProfile.business_records evidence ∧
            BusinessRecordEntry.exception_established record = false.
Proof.
  unfold EvidenceProfile.business_records_without_foundation.
  induction (EvidenceProfile.business_records evidence) as [|r rs IH]; simpl.
  - split; [done|]. intros (x & Hx & _). by apply elem_of_nil in Hx.
  - destruct (BusinessRecordEntry.exception_established r) eqn:Hr; simpl.
    + rewrite IH. split.
      * intros (x & Hx & Hf). exists x. split; [by right|done].
      * intros (x & Hx & Hf). apply elem_of_cons in Hx as [->|Hx]; [congruence|].
        by exists x.
    + split; [|done]. intros _. exists r. split; [by left|done].
Qed.

(** Closed statements about the documents of the unit tests are evaluated
    with [Py.ascii_text]: the strings trimmed or lower-cased there (fields of
    the documents, messages of the evaluators) are ASCII, on which Python's
    two methods are the ones of [Py.ascii_text].  The instance is
    local to the sections [ascii_documents_n]; every other statement holds
    for any [Py.Text]. *)
Section ascii_documents_1.
#[local] Existing Instance Py.ascii_text.

(** C1 (as stated, first half): a profile with no business records at all
    is rated UNCLEAR by the EA_69 evaluator, hence not COMPLIANT. *)
Lemma business_records_none_tendered_not_compliant :
  EvidenceProfile.business_records (DocumentProfile.evidence fixtures.blank) = [] ∧
  _evaluate_document fixtures.blank !! "EA_69" = Some (_business_records fixtures.blank) ∧
  CheckStatus.status (_business_records fixtures.blank) = UNCLEAR ∧
  CheckStatus.status (_business_records fixtures.blank) ≠ COMPLIANT.
Proof.
  split; [reflexivity|]. split; [by rewrite evaluate_document_lookup|].
  split; [reflexivity|discriminate].
Qed.

End ascii_documents_1.

(** C1 (amended): the registry entry EA_69 is [_business_records]; with no
    business-record entries it returns UNCLEAR with the message
    "No business records disclosed" and nothing missing; when some entry
    lacks an established foundation it returns NON_COMPLIANT with the message
    "Business records exception unsupported", listing the descriptions of
    those entries in order; it returns COMPLIANT exactly when there is at
    least one entry and every foundation is established, then with the
    message "Business records foundation established" and nothing missing. *)
Theorem business_records_status {text : Py.Text} (document : DocumentProfile.t) :
  let evidence := DocumentProfile.evidence document in
  let result := _business_records document in
  _evaluate_document document !! "EA_69" = Some result ∧
  (EvidenceProfile.business_records evidence = [] →
   CheckStatus.status result = UNCLEAR ∧
   CheckStatus.message result = "No business records disclosed" ∧
   CheckStatus.missing_items result = []) ∧
  ((∃ record, record ∈ EvidenceProfile.business_records evidence ∧
              BusinessRecordEntry.exception_established record = false) →
   CheckStatus.status result = NON_COMPLIANT ∧
   CheckStatus.message result = "Business records exception unsupported" ∧
   CheckStatus.missing_items result =
     EvidenceProfile.business_records_without_foundation evidence ∧
   CheckStatus.missing_items result =
     map BusinessRecordEntry.description
       (List.filter
          (fun record => negb (BusinessRecordEntry.exception_established record))
          (EvidenceProfile.business_records evidence))) ∧
  (CheckStatus.status result = COMPLIANT ↔
   EvidenceProfile.business_records evidence ≠ [] ∧
   ∀ record, record ∈ EvidenceProfile.business_records evidence →
             BusinessRecordEntry.exception_established record = true) ∧
  (CheckStatus.status result = COMPLIANT →
   CheckStatus.message result = "Business records foundation established" ∧
   CheckStatus.missing_items result = []).
Proof.
  intros evidence result. split; [by rewrite evaluate_document_lookup|].
  subst result. unfold _business_records. fold evidence.
  pose proof (without_foundation_truthy evidence) as Hw.
  split; [|split; [|split]].
  - intros Hnil. unfold EvidenceProfile.business_records_without_foundation.
    by rewrite Hnil.
  - intros Hex. apply Hw in Hex. by rewrite Hex.
  - destruct (Py.list_truthy (EvidenceProfile.business_records_without_foundation evidence))
      eqn:Ht.
    + split; [intros [=]|]. intros [_ Hall].
      destruct (proj1 Hw eq_refl) as (r & Hr & Hf). apply Hall in Hr. congruence.
    + destruct (Py.list_truthy (EvidenceProfile.business_records evidence)) eqn:Hb.
      * split; [|done]. intros _. split; [by apply list_truthy_true|].
        intros record Hr.
        destruct (BusinessRecordEntry.exception_established record) eqn:He; [done|].
        assert (false = true) as Hyes by (apply Hw; eauto).
        discriminate Hyes.
      * split; [intros [=]|]. intros [Hne _]. apply list_truthy_true in Hne. congruence.
  - destruct (Py.list_truthy (EvidenceProfile.business_records_without_foundation evidence));
      [intros [=]|].
    destruct (Py.list_truthy (EvidenceProfile.business_records evidence));
      [done|intros [=]].
Qed.

Section ascii_documents_2.
#[local] Existing Instance Py.ascii_text.

Lemma business_records_status_witness :
  (CheckStatus.status (_business_records fixtures.blank) = UNCLEAR ∧
   CheckStatus.message (_business_records fixtures.blank) =
     "No business records disclosed" ∧
   CheckStatus.missing_items (_business_records fixtures.blank) = []) ∧
  (CheckStatus.status (_business_records fixtures.doc_b) = NON_COMPLIANT ∧
   CheckStatus.message (_business_records fixtures.doc_b) =
     "Business records exception unsupported" ∧
   CheckStatus.missing_items (_business_records fixtures.doc_b) = ["Maintenance log"]) ∧
  CheckStatus.status (_business_records fixtures.doc_a) = COMPLIANT.
Proof.
  split; [|split].
  - apply (proj1 (proj2 (business_records_status fixtures.blank))). reflexivity.
  - destruct (proj1 (proj2 (proj2 (business_records_status fixtures.doc_b))))
      as (Hs & Hm & _ & Hl).
    + eexists. split; [apply list_elem_of_here|reflexivity].
    + split; [exact Hs|]. split; [exact Hm|exact Hl].
  - apply (proj1 (proj2 (proj2 (proj2 (business_records_status fixtures.doc_a))))).
    split; [discriminate|].
    intros record Hr. apply list_elem_of_singleton in Hr. by subst record.
Defined.

End ascii_documents_2.

(** C5: when the statutory-authority string is non-empty after trimming and
    the ambiguity flag is set, the RSA_AUTHORITY evaluator returns UNCLEAR
    (so never COMPLIANT), whatever the rest of the profile holds. *)
Theorem statutory_authority_ambiguous_unclear {text : Py.Text}
    (document : DocumentProfile.t) (authority : string) :
  PreliminaryTestRecord.statutory_authority (DocumentProfile.preliminary_test document)
    = Some authority →
  Py.strip authority ≠ EmptyString →
  PreliminaryTestRecord.authority_is_ambiguous (DocumentProfile.preliminary_test document)
    = true →
  _evaluate_document document !! "RSA_AUTHORITY" = Some (_statutory_authority document) ∧
  CheckStatus.status (_statutory_authority document) = UNCLEAR ∧
  CheckStatus.status (_statutory_authority document) ≠ COMPLIANT.
Proof.
  intros Hauth Hstrip Hamb. split; [by rewrite evaluate_document_lookup|].
  assert (PreliminaryTestRecord.has_statutory_authority
            (DocumentProfile.preliminary_test document) = true) as Hhas.
  { unfold PreliminaryTestRecord.has_statutory_authority,
      PreliminaryTestRecord.nonblank. rewrite Hauth.
    assert (Py.str_truthy authority = true) as ->.
    { apply str_truthy_true. intros ->. apply Hstrip, Py.strip_empty. }
    by apply str_truthy_true. }
  unfold _statutory_authority. rewrite Hhas, Hamb. simpl. done.
Qed.

(** C6: with no hearsay items and no documented hearsay review the EA_59
    evaluator returns UNCLEAR; and on no profile does it return
    NON_COMPLIANT. *)
Theorem hearsay_flagged_never_non_compliant {text : Py.Text} (document : DocumentProfile.t) :
  _evaluate_document document !! "EA_59" = Some (_hearsay_flagged document) ∧
  (EvidenceProfile.hearsay_items (DocumentProfile.evidence document) = [] →
   EvidenceProfile.hearsay_review_documented (DocumentProfile.evidence document) = false →
   CheckStatus.status (_hearsay_flagged document) = UNCLEAR) ∧
  CheckStatus.status (_hearsay_flagged document) ≠ NON_COMPLIANT.
Proof.
  split; [by rewrite evaluate_document_lookup|].
  unfold _hearsay_flagged. split.
  - intros -> ->. reflexivity.
  - by destruct (_ || _).
Qed.

Section ascii_documents_3.
#[local] Existing Instance Py.ascii_text.

Lemma hearsay_flagged_never_non_compliant_witness :
  CheckStatus.status (_hearsay_flagged fixtures.blank) = UNCLEAR.
Proof. apply (hearsay_flagged_never_non_compliant fixtures.blank); reflexivity. Defined.

End ascii_documents_3.

(** C8: [calibration_complete()] holds exactly when the calibration records
    or the maintenance records are non-empty; either list alone suffices. *)
Theorem calibration_complete_either (record : PreliminaryTestRecord.t) :
  (PreliminaryTestRecord.calibration_complete record = true ↔
   PreliminaryTestRecord.calibration_records record ≠ [] ∨
   PreliminaryTestRecord.maintenance_records record ≠ []) ∧
  (PreliminaryTestRecord.calibration_records record ≠ [] →
   PreliminaryTestRecord.calibration_complete record = true) ∧
  (PreliminaryTestRecord.maintenance_records record ≠ [] →
   PreliminaryTestRecord.calibration_complete record = true).
Proof.
  unfold PreliminaryTestRecord.calibration_complete.
  destruct (PreliminaryTestRecord.calibration_records record) as [|c cs],
    (PreliminaryTestRecord.maintenance_records record) as [|m ms]; simpl;
    repeat split; try done; intros; try tauto; naive_solver.
Qed.

Lemma calibration_complete_either_witness :
  PreliminaryTestRecord.calibration_complete fixtures.calibration_only = true ∧
  PreliminaryTestRecord.calibration_complete fixtures.maintenance_only = true.
Proof.
  split.
  - apply (proj1 (proj2 (calibration_complete_either fixtures.calibration_only))).
    discriminate.
  - apply (proj2 (proj2 (calibration_complete_either fixtures.maintenance_only))).
    discriminate.
Defined.

Section ascii_documents_4.
#[local] Existing Instance Py.ascii_text.

Lemma statutory_authority_ambiguous_unclear_witness :
  CheckStatus.status (_statutory_authority fixtures.doc_ambiguous) = UNCLEAR.
Proof.
  apply (statutory_authority_ambiguous_unclear fixtures.doc_ambiguous "RSA 1986 s.55(1)");
    [reflexivity|vm_compute; discriminate|reflexivity].
Defined.

End ascii_documents_4.

(** ** No COMPLIANT result carries missing items *)

Tactic Notation "evaluator_cases" reference(f) :=
  unfold f, CheckStatus.mk2; simpl; repeat case_match; simpl; congruence.

Lemma compliant_no_missing_by_checker {text : Py.Text} (document : DocumentProfile.t)
    (p : StatutoryProvision.t) :
  p ∈ PROVISIONS →
  CheckStatus.status (StatutoryProvision.checker p document) = COMPLIANT →
  CheckStatus.missing_items (StatutoryProvision.checker p document) = [].
Proof.
  intros Hp. unfold PROVISIONS in Hp.
  repeat (apply elem_of_cons in Hp as [->|Hp]); [..|by apply elem_of_nil in Hp];
    cbn [StatutoryProvision.checker].
  - evaluator_cases _disclosure_items.
  - evaluator_cases _statement_execution.
  - evaluator_cases _disclosure_timing.
  - evaluator_cases _exhibit_identification.
  - evaluator_cases _statutory_authority.
  - evaluator_cases _reason_to_believe.
  - evaluator_cases _directions_language.
  - evaluator_cases _oral_directions.
  - evaluator_cases _proper_performance.
  - evaluator_cases _evidentiary_test.
  - evaluator_cases _hearsay_flagged.
  - evaluator_cases _hearsay_exceptions.
  - evaluator_cases _business_records.
  - evaluator_cases _section_137.
  - evaluator_cases _section_138.
Qed.

(** C10: for every profile and every registry evaluator, a COMPLIANT result
    has an empty [missing_items]; the same holds for every entry of the
    per-document evaluation.  The UNCLEAR results of EA_137 and EA_138 carry
    the (non-empty) triggering factor lists. *)
Theorem compliant_has_no_missing_items {text : Py.Text} (document : DocumentProfile.t) :
  (∀ p, p ∈ PROVISIONS →
        CheckStatus.status (StatutoryProvision.checker p document) = COMPLIANT →
        CheckStatus.missing_items (StatutoryProvision.checker p document) = []) ∧
  (∀ k result, _evaluate_document document !! k = Some result →
        CheckStatus.status result = COMPLIANT →
        CheckStatus.missing_items result = []) ∧
  (CheckStatus.status (_section_137 document) = UNCLEAR →
   CheckStatus.missing_items (_section_137 document) =
     EvidenceProfile.s137_prejudice_factors (DocumentProfile.evidence document) ∧
   CheckStatus.missing_items (_section_137 document) ≠ []) ∧
  (CheckStatus.status (_section_138 document) = UNCLEAR →
   CheckStatus.missing_items (_section_138 document) =
     EvidenceProfile.s138_exclusion_factors (DocumentProfile.evidence document) ∧
   CheckStatus.missing_items (_section_138 document) ≠ []).
Proof.
  split; [|split; [|split]].
  - intros p. apply compliant_no_missing_by_checker.
  - intros k result. rewrite evaluate_document_lookup.
    destruct (List.find _ PROVISIONS) as [p|] eqn:Hfind; [|done].
    intros [= <-]. apply compliant_no_missing_by_checker.
    apply find_some in Hfind as [Hin _]. by apply list_elem_of_In.
  - unfold _section_137.
    destruct (Py.list_truthy (EvidenceProfile.s137_prejudice_factors _)) eqn:Hf;
      [|done].
    destruct (EvidenceProfile.s137_analysis_documented _); [done|]. simpl.
    intros _. split; [done|]. by apply list_truthy_true.
  - unfold _section_138.
    destruct (EvidenceProfile.has_unlawful_obtainment_risk _); [done|].
    destruct (Py.list_truthy (EvidenceProfile.s138_exclusion_factors _)) eqn:Hf;
      [|done].
    simpl. intros _. split; [done|]. by apply list_truthy_true.
Qed.

Section ascii_documents_5.
#[local] Existing Instance Py.ascii_text.

Lemma compliant_has_no_missing_items_witness :
  CheckStatus.missing_items (_disclosure_items fixtures.doc_a) = [] ∧
  CheckStatus.missing_items (_section_137 fixtures.doc_b) =
    ["Highly prejudicial character evidence"].
Proof.
  split.
  - apply (proj1 (compliant_has_no_missing_items fixtures.doc_a)
             (StatutoryProvision.mk "CPA_DISCLOSURE"
                "CPA 2009 Part 3.3 – Disclosure package" _disclosure_items)).
    + apply list_elem_of_here.
    + reflexivity.
  - apply (compliant_has_no_missing_items fixtures.doc_b). reflexivity.
Defined.

End ascii_documents_5.

(** ** Lookups by name in the Magistrates' Court checklists *)
Section checklists.
Import court_knowledge.
Variable provided : gmap string bool.

Lemma not_provided_is_missing (item : ChecklistItem.t) :
  not_provided provided item = true ↔ is_missing provided item.
Proof.
  unfold not_provided, is_missing.
  destruct (provided !! ChecklistItem.key item) as [[]|]; simpl; split;
    congruence.
Qed.

Lemma missing_items_spec (items : list ChecklistItem.t) (item : ChecklistItem.t) :
  item ∈ List.filter (not_provided provided) items ↔
  item ∈ items ∧ is_missing provided item.
Proof.
  rewrite <- not_provided_is_missing, !list_elem_of_In. apply filter_In.
Qed.

Lemma stages_dom :
  dom (MagistratesCourtProcedureChecker.stages MagistratesCourtProcedureChecker.__init__)
  = list_to_set known_stage_names.
Proof.
  unfold MagistratesCourtProcedureChecker.__init__. simpl.
  rewrite !dom_insert_L, dom_empty_L. set_solver.
Qed.

Lemma sections_dom :
  dom DISCLOSURE_COMPLIANCE_MATRIX = list_to_set known_section_names.
Proof.
  unfold DISCLOSURE_COMPLIANCE_MATRIX.
  rewrite !dom_insert_L, dom_empty_L. set_solver.
Qed.

Lemma known_stage_found (name : string) :
  name ∈ known_stage_names →
  is_Some (MagistratesCourtProcedureChecker.stages
             MagistratesCourtProcedureChecker.__init__ !! name).
Proof. intros Hn. apply elem_of_dom. rewrite stages_dom. set_solver. Qed.

Lemma known_section_found (name : string) :
  name ∈ known_section_names → is_Some (DISCLOSURE_COMPLIANCE_MATRIX !! name).
Proof. intros Hn. apply elem_of_dom. rewrite sections_dom. set_solver. Qed.
End checklists.

(** C9: on a freshly constructed checker, [evaluate_stage] raises
    [KeyError] exactly when the stage name is not one of the three known
    stages, and [evaluate_disclosure_section] raises [KeyError] exactly when
    the section is neither "prosecution" nor "defence"; for a known name each
    returns, without error, the items of that checklist that are missing, in
    checklist order. *)
Theorem lookup_raises_exactly_on_unknown_name
    (name : string) (provided : gmap string bool) :
  let checker :=
    court_knowledge.MagistratesCourtProcedureChecker.__init__ in
  (name ∉ known_stage_names ↔
   ∃ message,
     court_knowledge.MagistratesCourtProcedureChecker.evaluate_stage checker name provided
       = inl (court_knowledge.KeyError message)) ∧
  (name ∈ known_stage_names ↔
   ∃ stage,
     stage ∈ [court_knowledge.CONTEST_MENTION_STAGE;
              court_knowledge.SUMMARY_CASE_CONFERENCE;
              court_knowledge.SUMMARY_HEARING_STAGE] ∧
     court_knowledge.ProcedureStage.name stage = name ∧
     court_knowledge.MagistratesCourtProcedureChecker.evaluate_stage checker name provided
       = inr (List.filter (court_knowledge.not_provided provided)
                (court_knowledge.ProcedureStage.items stage)) ∧
     ∀ item,
       item ∈ List.filter (court_knowledge.not_provided provided)
                (court_knowledge.ProcedureStage.items stage) ↔
       item ∈ court_knowledge.ProcedureStage.items stage ∧ is_missing provided item) ∧
  (name ∉ known_section_names ↔
   ∃ message,
     court_knowledge.evaluate_disclosure_section name provided
       = inl (court_knowledge.KeyError message)) ∧
  (name ∈ known_section_names ↔
   ∃ items,
     court_knowledge.DISCLOSURE_COMPLIANCE_MATRIX !! name = Some items ∧
     court_knowledge.evaluate_disclosure_section name provided
       = inr (List.filter (court_knowledge.not_provided provided) items) ∧
     ∀ item,
       item ∈ List.filter (court_knowledge.not_provided provided) items ↔
       item ∈ items ∧ is_missing provided item).
Proof.
  intros checker. subst checker.
  pose proof (known_stage_found name) as Hstage.
  pose proof (known_section_found name) as Hsection.
  unfold court_knowledge.MagistratesCourtProcedureChecker.evaluate_stage,
    court_knowledge.evaluate_disclosure_section.
  rewrite stages_dom, sections_dom.
  split; [|split; [|split]].
  - case_bool_decide as Hd; rewrite elem_of_list_to_set in Hd.
    + split; [eauto|done].
    + split; [done|]. intros [message Heq]. exfalso.
      destruct (Hstage Hd) as [stage Hst]. by rewrite Hst in Heq.
  - case_bool_decide as Hd; rewrite elem_of_list_to_set in Hd.
    + split; [done|]. by intros (? & _ & _ & ? & _).
    + split; [intros _|done]. clear Hstage Hsection.
      unfold known_stage_names in Hd.
      repeat (apply elem_of_cons in Hd as [->|Hd]); [..|by apply elem_of_nil in Hd].
      * exists court_knowledge.CONTEST_MENTION_STAGE. split; [set_solver|].
        split; [done|]. split; [done|]. apply missing_items_spec.
      * exists court_knowledge.SUMMARY_CASE_CONFERENCE. split; [set_solver|].
        split; [done|]. split; [done|]. apply missing_items_spec.
      * exists court_knowledge.SUMMARY_HEARING_STAGE. split; [set_solver|].
        split; [done|]. split; [done|]. apply missing_items_spec.
  - case_bool_decide as Hd; rewrite elem_of_list_to_set in Hd.
    + split; [eauto|done].
    + split; [done|]. intros [message Heq]. exfalso.
      destruct (Hsection Hd) as [items Hit]. by rewrite Hit in Heq.
  - case_bool_decide as Hd; rewrite elem_of_list_to_set in Hd.
    + split; [done|]. by intros (? & _ & ? & _).
    + split; [intros _|done].
      destruct (Hsection Hd) as [items Hit]. exists items. rewrite Hit.
      split; [done|]. split; [done|]. apply missing_items_spec.
Qed.

(** ** Sorted sets of strings *)

Lemma sorted_elem_of (s : gset string) (x : string) : x ∈ Py.sorted s ↔ x ∈ s.
Proof. unfold Py.sorted. by rewrite merge_sort_Permutation, elem_of_elements. Qed.

Lemma sorted_NoDup (s : gset string) : NoDup (Py.sorted s).
Proof. unfold Py.sorted. rewrite merge_sort_Permutation. apply NoDup_elements. Qed.

Lemma sorted_StronglySorted (s : gset string) : StronglySorted String.le (Py.sorted s).
Proof. apply StronglySorted_merge_sort; apply _. Qed.

Lemma set_truthy_true (s : gset string) : Py.set_truthy s = true ↔ s ≠ ∅.
Proof.
  unfold Py.set_truthy. rewrite list_truthy_true.
  by rewrite elements_empty_iff, leibniz_equiv_iff.
Qed.

Lemma sorted_nil (s : gset string) : Py.sorted s = [] ↔ s = ∅.
Proof.
  split.
  - intros Hnil. apply set_eq. intros x. rewrite <- sorted_elem_of, Hnil. set_solver.
  - intros ->. reflexivity.
Qed.

Lemma symmetric_difference_elem_of (a b : list string) (x : string) :
  x ∈ Py.symmetric_difference (Py.set_of a) (Py.set_of b) ↔
  (x ∈ a ∧ x ∉ b) ∨ (x ∈ b ∧ x ∉ a).
Proof. unfold Py.symmetric_difference, Py.set_of. set_solver. Qed.

(** ** Rows of the cross-reference matrix *)

Lemma append_cons (c : ascii) (s t : string) :
  String c s +:+ t = String c (s +:+ t).
Proof. reflexivity. Qed.

Lemma action_required_compliant {text : Py.Text} (label : string) (status : CheckStatus.t) :
  CheckStatus.status status = COMPLIANT → _action_required label status = EmptyString.
Proof. intros H. unfold _action_required. by rewrite H. Qed.

Lemma action_required_head {text : Py.Text} (c : ascii) (label : string) (status : CheckStatus.t) :
  CheckStatus.status status ≠ COMPLIANT →
  ∃ tail, _action_required (String c label) status = String c tail.
Proof.
  intros H. unfold _action_required.
  rewrite bool_decide_eq_false_2 by done.
  destruct (Py.list_truthy _); rewrite append_cons; eauto.
Qed.

Lemma row_action_required {text : Py.Text} (results_a results_b : gmap string CheckStatus.t)
    (p : StatutoryProvision.t) (row : CrossReferenceRow.t) :
  cross_reference_row results_a results_b p = Some row →
  CrossReferenceRow.action_required row = "None" ↔
  CheckStatus.status (CrossReferenceRow.doc_a row) = COMPLIANT ∧
  CheckStatus.status (CrossReferenceRow.doc_b row) = COMPLIANT.
Proof.
  unfold cross_reference_row. intros Hrow.
  destruct (results_a !! _) as [sa|]; [|done].
  destruct (results_b !! _) as [sb|]; [|done].
  simplify_eq/=.
  destruct (decide (CheckStatus.status sa = COMPLIANT)) as [Ha|Ha],
    (decide (CheckStatus.status sb = COMPLIANT)) as [Hb|Hb].
  - rewrite !action_required_compliant by done. done.
  - rewrite (action_required_compliant _ sa) by done.
    destruct (action_required_head "D" "oc B" sb Hb) as [tb ->]. simpl.
    split; [discriminate|tauto].
  - destruct (action_required_head "D" "oc A" sa Ha) as [ta ->].
    rewrite (action_required_compliant _ sb) by done. simpl.
    split; [discriminate|tauto].
  - destruct (action_required_head "D" "oc A" sa Ha) as [ta ->].
    destruct (action_required_head "D" "oc B" sb Hb) as [tb ->]. simpl.
    split; [discriminate|tauto].
Qed.

Lemma cross_reference_rows {text : Py.Text} (results_a results_b : gmap string CheckStatus.t)
    (ps : list StatutoryProvision.t) (init : list CrossReferenceRow.t) :
  (∀ p, p ∈ ps → is_Some (results_a !! StatutoryProvision.key p) ∧
                 is_Some (results_b !! StatutoryProvision.key p)) →
  ∃ rows,
    foldl
      (fun acc provision =>
         rows ← acc;
         row ← cross_reference_row results_a results_b provision;
         Some (rows ++ [row]))
      (Some init) ps = Some (init ++ rows) ∧
    Forall2 (fun p row => cross_reference_row results_a results_b p = Some row) ps rows.
Proof.
  revert init. induction ps as [|p ps IH]; intros init Hall; simpl.
  - exists []. by rewrite app_nil_r.
  - destruct (Hall p) as [[sa Ha] [sb Hb]]; [by left|].
    destruct (cross_reference_row results_a results_b p) as [row|] eqn:Hrow.
    + destruct (IH (init ++ [row])) as (rows & Hfold & Hrows).
      { intros q Hq. apply Hall. by right. }
      exists (row :: rows). split; [|by constructor].
      simpl. rewrite Hfold. by rewrite <- app_assoc.
    + unfold cross_reference_row in Hrow. rewrite Ha, Hb in Hrow. done.
Qed.

Lemma build_cross_reference_rows {text : Py.Text} (doc_a doc_b : DocumentProfile.t) :
  ∃ rows,
    _build_cross_reference doc_a doc_b = Some rows ∧
    Forall2
      (fun p row =>
         cross_reference_row (_evaluate_document doc_a) (_evaluate_document doc_b) p
           = Some row)
      PROVISIONS rows.
Proof.
  unfold _build_cross_reference.
  destruct (cross_reference_rows (_evaluate_document doc_a) (_evaluate_document doc_b)
              PROVISIONS []) as (rows & Hfold & Hrows).
  - intros p Hp. rewrite !evaluate_document_provision by done. eauto.
  - exists rows. split; [exact Hfold|exact Hrows].
Qed.

(** ** The defect report *)

Lemma add_all_defects (report : DefectReport.t) (defects : list Defect.t) :
  foldl DefectReport.add report defects =
    DefectReport.mk
      (DefectReport.high report ++ of_severity HIGH defects)
      (DefectReport.medium report ++ of_severity MEDIUM defects)
      (DefectReport.low report ++ of_severity LOW defects).
Proof.
  revert report. induction defects as [|d ds IH]; intros report; simpl.
  - destruct report. unfold of_severity. simpl. by rewrite !app_nil_r.
  - rewrite IH. unfold DefectReport.add, of_severity.
    rewrite !filter_cons.
    destruct (Defect.severity d) eqn:Hd; simpl;
      repeat case_decide; try congruence; by rewrite <- ?app_assoc.
Qed.

Lemma date_loop (doc_a doc_b : DocumentProfile.t) (keys : list string)
    (report : DefectReport.t) :
  (∀ k, k ∈ keys → is_Some (DocumentProfile.key_dates doc_a !! k) ∧
                   is_Some (DocumentProfile.key_dates doc_b !! k)) →
  foldl (date_step doc_a doc_b) (Some report) keys =
    Some (DefectReport.mk
            (DefectReport.high report)
            (DefectReport.medium report ++
             concat (map (date_defects_for doc_a doc_b) keys))
            (DefectReport.low report)).
Proof.
  revert report. induction keys as [|k keys IH]; intros report Hall; simpl.
  - destruct report. simpl. by rewrite app_nil_r.
  - destruct (Hall k) as [[da Ha] [db Hb]]; [by left|].
    unfold date_defects_for at 1. rewrite Ha, Hb. simpl.
    destruct (dates_conflict da db).
    + rewrite IH by (intros; apply Hall; by right).
      unfold DefectReport.add. simpl. by rewrite <- app_assoc.
    + rewrite IH by (intros; apply Hall; by right). done.
Qed.

Lemma shared_dates_elem_of (doc_a doc_b : DocumentProfile.t) (k : string) :
  k ∈ Py.sorted (shared_dates doc_a doc_b) ↔
  is_Some (DocumentProfile.key_dates doc_a !! k) ∧
  is_Some (DocumentProfile.key_dates doc_b !! k).
Proof.
  rewrite sorted_elem_of. unfold shared_dates.
  by rewrite elem_of_intersection, !elem_of_dom.
Qed.

Lemma identify_defects_report {text : Py.Text} (doc_a doc_b : DocumentProfile.t) :
  let per_document := _identify_doc_defects doc_a ++ _identify_doc_defects doc_b in
  _identify_defects doc_a doc_b =
    Some (DefectReport.mk
            (of_severity HIGH per_document)
            (of_severity MEDIUM per_document ++
             concat (map (date_defects_for doc_a doc_b)
                       (Py.sorted (shared_dates doc_a doc_b))))
            (of_severity LOW per_document)).
Proof.
  intros per_document. unfold _identify_defects.
  rewrite <- foldl_app. fold per_document.
  rewrite add_all_defects. simpl.
  rewrite date_loop by (intros k; apply shared_dates_elem_of). done.
Qed.

Lemma elem_of_defect_if (cond : bool) (d d' : Defect.t) :
  d ∈ defect_if cond d' → d = d'.
Proof.
  destruct cond; simpl; intros H.
  - by apply list_elem_of_singleton in H.
  - by apply elem_of_nil in H.
Qed.

(** A per-document defect never equals a cross-document date defect. *)
Lemma doc_defect_not_date_defect {text : Py.Text} (document : DocumentProfile.t)
    (key date_a date_b : string) :
  inconsistent_date_defect key date_a date_b ∉ _identify_doc_defects document.
Proof.
  unfold _identify_doc_defects, inconsistent_date_defect. intros H.
  repeat (apply elem_of_app in H as [H|H]);
    apply elem_of_defect_if in H; injection H as Hname Hdescr;
    try discriminate; cbv [String.append] in Hdescr; discriminate.
Qed.

(** ** The assembled report *)

Lemma build_phase_b_report_total {text : Py.Text} (doc_a doc_b : DocumentProfile.t) :
  ∃ report,
    build_phase_b_report doc_a doc_b = Some report ∧
    _build_cross_reference doc_a doc_b = Some (PhaseBReport.cross_reference_matrix report) ∧
    _identify_defects doc_a doc_b = Some (PhaseBReport.defects report) ∧
    Forall2
      (fun p row =>
         cross_reference_row (_evaluate_document doc_a) (_evaluate_document doc_b) p
           = Some row)
      PROVISIONS (PhaseBReport.cross_reference_matrix report).
Proof.
  destruct (build_cross_reference_rows doc_a doc_b) as (rows & Hrows & Hall).
  destruct (_identify_defects doc_a doc_b) as [defects|] eqn:Hdef;
    [|rewrite identify_defects_report in Hdef; discriminate Hdef].
  exists (PhaseBReport.mk rows defects (_omissions doc_a doc_b)).
  unfold build_phase_b_report. rewrite Hrows, Hdef.
  split; [reflexivity|]. split; [reflexivity|]. split; [reflexivity|]. exact Hall.
Qed.

Lemma rows_satisfy {text : Py.Text} (P : CrossReferenceRow.t → Prop)
    (results_a results_b : gmap string CheckStatus.t)
    (ps : list StatutoryProvision.t) (rows : list CrossReferenceRow.t) :
  (∀ p row, cross_reference_row results_a results_b p = Some row → P row) →
  Forall2 (fun p row => cross_reference_row results_a results_b p = Some row) ps rows →
  Forall P rows.
Proof. intros HP. induction 1; constructor; eauto. Qed.

Lemma evaluate_document_dom {text : Py.Text} (document : DocumentProfile.t) :
  dom (_evaluate_document document) = list_to_set registry_keys.
Proof.
  apply set_eq. intros k.
  rewrite elem_of_dom, evaluate_document_lookup, elem_of_list_to_set.
  unfold registry_keys. rewrite list_elem_of_fmap. split.
  - intros [r Hr]. destruct (List.find _ PROVISIONS) as [p|] eqn:Hfind; [|done].
    apply find_some in Hfind as [Hin Hk]. apply bool_decide_eq_true_1 in Hk.
    exists p. split; [done|]. by apply list_elem_of_In.
  - intros (p & -> & Hp).
    rewrite <- evaluate_document_lookup, evaluate_document_provision by done. eauto.
Qed.

(** C2: the per-document evaluation holds exactly the 15 registry keys, each
    once, mapped to its own evaluator's result; [build_phase_b_report]
    returns a report for every pair of profiles, whose matrix has exactly 15
    rows, the i-th row carrying the label of the i-th registry provision and
    that provision's results for the two documents. *)
Theorem phase_b_matrix_follows_registry {text : Py.Text} (doc_a doc_b : DocumentProfile.t) :
  length PROVISIONS = 15 ∧
  NoDup registry_keys ∧
  (∀ document,
     dom (_evaluate_document document) = list_to_set registry_keys ∧
     size (_evaluate_document document) = 15 ∧
     ∀ p, p ∈ PROVISIONS →
          _evaluate_document document !! StatutoryProvision.key p =
            Some (StatutoryProvision.checker p document)) ∧
  ∃ report,
    build_phase_b_report doc_a doc_b = Some report ∧
    length (PhaseBReport.cross_reference_matrix report) = 15 ∧
    map CrossReferenceRow.statutory_provision (PhaseBReport.cross_reference_matrix report)
      = registry_labels ∧
    Forall2
      (fun p row =>
         CrossReferenceRow.statutory_provision row = StatutoryProvision.label p ∧
         CrossReferenceRow.doc_a row = StatutoryProvision.checker p doc_a ∧
         CrossReferenceRow.doc_b row = StatutoryProvision.checker p doc_b)
      PROVISIONS (PhaseBReport.cross_reference_matrix report).
Proof.
  split; [reflexivity|]. split; [apply registry_keys_NoDup|]. split.
  - intros document. split; [apply evaluate_document_dom|]. split.
    + rewrite <- size_dom, evaluate_document_dom.
      rewrite size_list_to_set by apply registry_keys_NoDup. reflexivity.
    + intros p. apply evaluate_document_provision.
  - destruct (build_phase_b_report_total doc_a doc_b) as (report & Hrep & _ & _ & Hrows).
    exists report. split; [done|].
    assert (Forall2
      (fun p row =>
         CrossReferenceRow.statutory_provision row = StatutoryProvision.label p ∧
         CrossReferenceRow.doc_a row = StatutoryProvision.checker p doc_a ∧
         CrossReferenceRow.doc_b row = StatutoryProvision.checker p doc_b)
      PROVISIONS (PhaseBReport.cross_reference_matrix report)) as Hspec.
    { assert (∀ p, p ∈ PROVISIONS → p ∈ PROVISIONS) as Hin by done.
      revert Hin Hrows. generalize PROVISIONS at 1 3 4.
      intros ps Hin Hrows. induction Hrows as [|p row ps rows Hrow _ IH]; constructor.
      - unfold cross_reference_row in Hrow.
        rewrite !evaluate_document_provision in Hrow by (apply Hin; by left).
        cbv beta iota delta [mbind option_bind] in Hrow.
        injection Hrow as <-. repeat split.
      - apply IH. intros q Hq. apply Hin. by right. }
    split; [|split; [|done]].
    + by rewrite <- (Forall2_length _ _ _ Hspec).
    + unfold registry_labels. clear Hrep Hrows.
      induction Hspec as [|p row ps rows (Hl & _ & _) _ IH]; simpl; [done|].
      by rewrite Hl, IH.
Qed.

(** C3: in every row of the matrix built for any pair of profiles,
    [action_required] is the literal ["None"] exactly when both per-document
    statuses are COMPLIANT. *)
Theorem action_required_none_iff_both_compliant {text : Py.Text} (doc_a doc_b : DocumentProfile.t) :
  ∃ report,
    build_phase_b_report doc_a doc_b = Some report ∧
    Forall
      (fun row =>
         CrossReferenceRow.action_required row = "None" ↔
         CheckStatus.status (CrossReferenceRow.doc_a row) = COMPLIANT ∧
         CheckStatus.status (CrossReferenceRow.doc_b row) = COMPLIANT)
      (PhaseBReport.cross_reference_matrix report).
Proof.
  destruct (build_phase_b_report_total doc_a doc_b) as (report & Hrep & _ & _ & Hrows).
  exists report. split; [done|].
  eapply rows_satisfy; [|exact Hrows]. apply row_action_required.
Qed.

(** ** The discrepancies text *)

Lemma summarise_discrepancies_described (status_a status_b : CheckStatus.t) :
  let diff :=
    Py.sorted (Py.symmetric_difference
                 (Py.set_of (CheckStatus.missing_items status_a))
                 (Py.set_of (CheckStatus.missing_items status_b))) in
  sorted_symmetric_difference
    (CheckStatus.missing_items status_a) (CheckStatus.missing_items status_b) diff ∧
  discrepancies_described status_a status_b diff
    (_summarise_discrepancies status_a status_b).
Proof.
  intros diff. split.
  - split; [apply sorted_StronglySorted|]. split; [apply sorted_NoDup|].
    intros x. subst diff. rewrite sorted_elem_of. apply symmetric_difference_elem_of.
  - unfold discrepancies_described, _summarise_discrepancies, status_mismatch.
    fold diff.
    assert (Py.set_truthy
              (Py.symmetric_difference
                 (Py.set_of (CheckStatus.missing_items status_a))
                 (Py.set_of (CheckStatus.missing_items status_b)))
            = Py.list_truthy diff) as ->.
    { subst diff. apply eq_true_iff_eq.
      by rewrite set_truthy_true, list_truthy_true, sorted_nil. }
    case_bool_decide as Hst; destruct diff as [|x diff'] eqn:Hdiff; simpl.
    all: repeat split; try done; try (by intros [_ ?]); intros; tauto.
Qed.

Lemma row_discrepancies {text : Py.Text} (results_a results_b : gmap string CheckStatus.t)
    (p : StatutoryProvision.t) (row : CrossReferenceRow.t) :
  cross_reference_row results_a results_b p = Some row →
  CrossReferenceRow.discrepancies row =
    _summarise_discrepancies (CrossReferenceRow.doc_a row) (CrossReferenceRow.doc_b row).
Proof.
  unfold cross_reference_row. intros Hrow.
  destruct (results_a !! _) as [sa|]; [|discriminate Hrow].
  destruct (results_b !! _) as [sb|]; [|discriminate Hrow].
  cbv beta iota delta [mbind option_bind] in Hrow.
  injection Hrow as <-. reflexivity.
Qed.

(** C4: in every row of the matrix built for any pair of profiles, with
    [diff] the sorted symmetric difference of the two missing-item sets,
    [discrepancies] is ["None"] exactly when the two statuses are equal and
    [diff] is empty; otherwise it is the ["; "]-joined text made of the
    colour-coded status mismatch (when the statuses differ) followed by the
    comma-separated [diff] (when it is non-empty). *)
Theorem discrepancies_none_iff_same_status_and_items {text : Py.Text} (doc_a doc_b : DocumentProfile.t) :
  ∃ report,
    build_phase_b_report doc_a doc_b = Some report ∧
    Forall
      (fun row =>
         let status_a := CrossReferenceRow.doc_a row in
         let status_b := CrossReferenceRow.doc_b row in
         ∃ diff,
           sorted_symmetric_difference
             (CheckStatus.missing_items status_a)
             (CheckStatus.missing_items status_b) diff ∧
           discrepancies_described status_a status_b diff
             (CrossReferenceRow.discrepancies row))
      (PhaseBReport.cross_reference_matrix report).
Proof.
  destruct (build_phase_b_report_total doc_a doc_b) as (report & Hrep & _ & _ & Hrows).
  exists report. split; [done|].
  eapply rows_satisfy; [|exact Hrows].
  intros p row Hrow. simpl. rewrite (row_discrepancies _ _ _ _ Hrow).
  eexists. apply summarise_discrepancies_described.
Qed.

(** ** Cross-document date defects *)

Lemma dates_conflict_true (date_a date_b : string) :
  dates_conflict date_a date_b = true ↔
  date_a ≠ EmptyString ∧ date_b ≠ EmptyString ∧ date_a ≠ date_b.
Proof.
  unfold dates_conflict.
  rewrite !andb_true_iff, !str_truthy_true, bool_decide_eq_true. tauto.
Qed.

Lemma date_defects_for_conflict (doc_a doc_b : DocumentProfile.t)
    (key date_a date_b : string) :
  DocumentProfile.key_dates doc_a !! key = Some date_a →
  DocumentProfile.key_dates doc_b !! key = Some date_b →
  (date_defects_for doc_a doc_b key = [inconsistent_date_defect key date_a date_b] ↔
   date_a ≠ EmptyString ∧ date_b ≠ EmptyString ∧ date_a ≠ date_b) ∧
  (date_defects_for doc_a doc_b key = [] ↔
   ¬ (date_a ≠ EmptyString ∧ date_b ≠ EmptyString ∧ date_a ≠ date_b)).
Proof.
  intros Ha Hb. unfold date_defects_for. rewrite Ha, Hb.
  rewrite <- dates_conflict_true.
  destruct (dates_conflict date_a date_b); split; split; congruence.
Qed.

Lemma occurrences_app (d : Defect.t) (xs ys : list Defect.t) :
  occurrences d (xs ++ ys) = occurrences d xs + occurrences d ys.
Proof. unfold occurrences. by rewrite filter_app, length_app. Qed.

Lemma occurrences_absent (d : Defect.t) (xs : list Defect.t) :
  d ∉ xs → occurrences d xs = 0.
Proof.
  unfold occurrences. induction xs as [|x xs IH]; intros Hd; [done|].
  rewrite filter_cons. apply not_elem_of_cons in Hd as [Hne Hd].
  case_decide; [congruence|]. by apply IH.
Qed.

Lemma occurrences_of_severity_absent (d : Defect.t) (s : Severity)
    (xs : list Defect.t) :
  d ∉ xs → occurrences d (of_severity s xs) = 0.
Proof.
  intros Hd. apply occurrences_absent. unfold of_severity.
  rewrite list_elem_of_filter. tauto.
Qed.

Lemma date_defects_for_shape (doc_a doc_b : DocumentProfile.t) (key : string) :
  date_defects_for doc_a doc_b key = [] ∨
  ∃ d, date_defects_for doc_a doc_b key = [d].
Proof. unfold date_defects_for. repeat case_match; eauto. Qed.

(** The date defect built for a key has one more occurrence among the
    emitted defects for every listed key that emits an equal defect. *)
Lemma occurrences_emitted (doc_a doc_b : DocumentProfile.t) (d : Defect.t)
    (keys : list string) :
  occurrences d (concat (map (date_defects_for doc_a doc_b) keys)) =
  length (filter (fun k => date_defects_for doc_a doc_b k = [d]) keys).
Proof.
  induction keys as [|k keys IH]; [done|].
  simpl. rewrite occurrences_app, IH, filter_cons.
  destruct (date_defects_for_shape doc_a doc_b k) as [Hk|[x Hk]]; rewrite Hk.
  - rewrite decide_False by done. done.
  - unfold occurrences at 1. rewrite filter_cons, filter_nil.
    destruct (decide (x = d)) as [->|Hne].
    + rewrite decide_True by done. done.
    + rewrite decide_False by congruence. done.
Qed.

Lemma filter_none {A} (P : A → Prop) `{∀ x, Decision (P x)} (l : list A) :
  (∀ x, x ∈ l → ¬ P x) → filter P l = [].
Proof.
  induction l as [|x l IH]; intros Hall; [done|].
  rewrite filter_cons, decide_False by (apply Hall; by left).
  apply IH. intros y Hy. apply Hall. by right.
Qed.

Lemma filter_only_key (P : string → Prop) `{∀ k, Decision (P k)}
    (key : string) (keys : list string) :
  NoDup keys → key ∈ keys →
  (∀ k, k ∈ keys → k ≠ key → ¬ P k) →
  length (filter P keys) = if decide (P key) then 1 else 0.
Proof.
  induction keys as [|k keys IH]; intros Hnd Hin Hother.
  - by apply elem_of_nil in Hin.
  - apply NoDup_cons in Hnd as [Hk Hnd]. rewrite filter_cons.
    destruct (decide (k = key)) as [->|Hne].
    + assert (filter P keys = []) as ->.
      { apply filter_none. intros k' Hk'.
        apply Hother; [by right|]. intros ->. done. }
      by destruct (decide (P key)).
    + apply elem_of_cons in Hin as [Heq|Hin]; [congruence|].
      rewrite decide_False by (apply Hother; [by left|done]).
      apply IH; [done|done|]. intros k' Hk'. apply Hother. by right.
Qed.

Section ascii_documents_6.
#[local] Existing Instance Py.ascii_text.

(** C7 (as stated): the key ["k"] is present in both mappings with non-empty,
    differing values, yet the report holds two MEDIUM defects attributed to
    "Doc A & Doc B" that name this key and both values, not exactly one: the
    entry for the key ["k date: Doc A 1"] renders to the same defect. *)
Lemma date_defect_reported_twice :
  let d := inconsistent_date_defect "k" "1 date: Doc A 2" "3" in
  DocumentProfile.key_dates fixtures.overlap_a !! "k" = Some "1 date: Doc A 2" ∧
  DocumentProfile.key_dates fixtures.overlap_b !! "k" = Some "3" ∧
  ("1 date: Doc A 2" ≠ EmptyString ∧ "3" ≠ EmptyString ∧ "1 date: Doc A 2" ≠ "3") ∧
  Defect.document d = "Doc A & Doc B" ∧
  Defect.severity d = MEDIUM ∧
  Defect.description d = "Inconsistent k date: Doc A 1 date: Doc A 2 vs Doc B 3" ∧
  ∃ report,
    _identify_defects fixtures.overlap_a fixtures.overlap_b = Some report ∧
    DefectReport.medium report = [d; d] ∧
    occurrences d (all_defects report) = 2.
Proof.
  intros d. subst d.
  split; [reflexivity|]. split; [reflexivity|].
  split; [repeat split; discriminate|].
  split; [reflexivity|]. split; [reflexivity|]. split; [reflexivity|].
  eexists. split; [vm_compute; reflexivity|]. split; reflexivity.
Qed.

End ascii_documents_6.

(** C7 (amended): for every pair of profiles the defect report is produced;
    its HIGH and LOW lists hold per-document defects only, and its MEDIUM
    list is the per-document MEDIUM defects of A, then of B, followed by what
    the cross-document pass emits for the keys present in both key-dates
    mappings, visited once each in ascending order.  For such a key the pass
    emits exactly one defect (document "Doc A & Doc B", severity MEDIUM, the
    description naming the key and both values) if and only if both values
    are non-empty and differ, and nothing otherwise; a key absent from either
    mapping is not visited.  The number of defects of the report equal to
    that one is the number of shared keys emitting it; it is exactly one, if
    and only if the values conflict, whenever no other shared key emits an
    equal defect. *)
Theorem cross_document_date_defects {text : Py.Text} (doc_a doc_b : DocumentProfile.t) :
  let keys := Py.sorted (shared_dates doc_a doc_b) in
  let per_document := _identify_doc_defects doc_a ++ _identify_doc_defects doc_b in
  let emitted := date_defects_for doc_a doc_b in
  ∃ report full,
    _identify_defects doc_a doc_b = Some report ∧
    build_phase_b_report doc_a doc_b = Some full ∧
    PhaseBReport.defects full = report ∧
    StronglySorted String.le keys ∧
    NoDup keys ∧
    (∀ k, k ∈ keys ↔ is_Some (DocumentProfile.key_dates doc_a !! k) ∧
                     is_Some (DocumentProfile.key_dates doc_b !! k)) ∧
    DefectReport.high report = of_severity HIGH per_document ∧
    DefectReport.medium report =
      of_severity MEDIUM per_document ++ concat (map emitted keys) ∧
    DefectReport.low report = of_severity LOW per_document ∧
    (∀ k date_a date_b,
       DocumentProfile.key_dates doc_a !! k = Some date_a →
       DocumentProfile.key_dates doc_b !! k = Some date_b →
       let d := inconsistent_date_defect k date_a date_b in
       let conflict :=
         date_a ≠ EmptyString ∧ date_b ≠ EmptyString ∧ date_a ≠ date_b in
       Defect.document d = "Doc A & Doc B" ∧
       Defect.severity d = MEDIUM ∧
       Defect.description d =
         "Inconsistent " +:+ k +:+ " date: Doc A " +:+ date_a +:+
         " vs Doc B " +:+ date_b ∧
       (emitted k = [d] ↔ conflict) ∧
       (emitted k = [] ↔ ¬ conflict) ∧
       occurrences d (all_defects report) =
         length (filter (fun k' => emitted k' = [d]) keys) ∧
       ((∀ k', k' ∈ keys → k' ≠ k → emitted k' ≠ [d]) →
        (occurrences d (all_defects report) = 1 ↔ conflict) ∧
        (occurrences d (all_defects report) = 0 ↔ ¬ conflict))) ∧
    (∀ k,
       DocumentProfile.key_dates doc_a !! k = None ∨
       DocumentProfile.key_dates doc_b !! k = None →
       (k ∉ keys) ∧ emitted k = []).
Proof.
  intros keys per_document emitted.
  destruct (build_phase_b_report_total doc_a doc_b) as (full & Hfull & _ & Hdef & _).
  pose proof (identify_defects_report doc_a doc_b) as Hreport. simpl in Hreport.
  fold per_document keys emitted in Hreport.
  eexists. exists full. split; [exact Hreport|]. split; [exact Hfull|].
  split; [rewrite Hreport in Hdef; congruence|].
  split; [apply sorted_StronglySorted|]. split; [apply sorted_NoDup|].
  split; [intros k; apply shared_dates_elem_of|].
  split; [reflexivity|]. split; [reflexivity|]. split; [reflexivity|]. split.
  - intros k date_a date_b Ha Hb d conflict.
    destruct (date_defects_for_conflict doc_a doc_b k date_a date_b Ha Hb)
      as [Hone Hnone].
    fold emitted d conflict in Hone, Hnone.
    assert (occurrences d
              (all_defects
                 (DefectReport.mk (of_severity HIGH per_document)
                    (of_severity MEDIUM per_document ++ concat (map emitted keys))
                    (of_severity LOW per_document)))
            = length (filter (fun k' => emitted k' = [d]) keys)) as Hcount.
    { assert (d ∉ per_document) as Habsent.
      { subst per_document d. rewrite elem_of_app.
        intros [H|H]; by apply doc_defect_not_date_defect in H. }
      unfold all_defects. simpl. rewrite !occurrences_app.
      rewrite !occurrences_of_severity_absent by done.
      subst emitted. rewrite occurrences_emitted. lia. }
    split; [reflexivity|]. split; [reflexivity|]. split; [reflexivity|].
    split; [exact Hone|]. split; [exact Hnone|]. split; [exact Hcount|].
    intros Hother. rewrite Hcount.
    rewrite (filter_only_key (fun k' => emitted k' = [d]) k keys);
      [|apply sorted_NoDup|apply shared_dates_elem_of; eauto|exact Hother].
    destruct (decide (emitted k = [d])) as [He|He].
    + split; [tauto|]. split; [discriminate|]. tauto.
    + split; [split; [discriminate|tauto]|]. tauto.
  - intros k Hk. split.
    + intros Hin. apply shared_dates_elem_of in Hin as [[? ?] [? ?]].
      destruct Hk; congruence.
    + subst emitted. unfold date_defects_for.
      destruct Hk as [-> | ->]; [done|]. by destruct (_ !! k).
Qed.

Section ascii_documents_7.
#[local] Existing Instance Py.ascii_text.

Lemma cross_document_date_defects_witness :
  ∃ report,
    _identify_defects fixtures.doc_a fixtures.doc_b = Some report ∧
    occurrences (inconsistent_date_defect "offence" "2024-05-10" "2024-05-11")
      (all_defects report) = 1.
Proof.
  destruct (cross_document_date_defects fixtures.doc_a fixtures.doc_b)
    as (report & full & Hreport & _ & _ & _ & _ & _ & _ & _ & _ & Hkey & _).
  exists report. split; [exact Hreport|].
  apply (Hkey "offence" "2024-05-10" "2024-05-11");
    [vm_compute; reflexivity|vm_compute; reflexivity| |].
  - assert (Py.sorted (shared_dates fixtures.doc_a fixtures.doc_b) = ["offence"])
      as -> by (vm_compute; reflexivity).
    intros k' Hk' Hne. apply list_elem_of_singleton in Hk'. congruence.
  - repeat split; discriminate.
Defined.

(** ** The assertions of [tests/test_phase_b.py], replayed on the model *)

Example test_phase_b_matrix_length :
  length <$> (PhaseBReport.cross_reference_matrix <$>
              build_phase_b_report fixtures.doc_a fixtures.doc_b)
  = Some (length PROVISIONS).
Proof. vm_compute. reflexivity. Qed.

Example test_phase_b_disclosure_row :
  (fun row =>
     (CheckStatus.status (CrossReferenceRow.doc_a row),
      CheckStatus.status (CrossReferenceRow.doc_b row),
      CrossReferenceRow.action_required row)) <$>
  (build_phase_b_report fixtures.doc_a fixtures.doc_b ≫=
   fun report => PhaseBReport.cross_reference_matrix report !! 0)
  = Some (COMPLIANT, NON_COMPLIANT,
          "Doc B: obtain informant statement, prior convictions history").
Proof. vm_compute. reflexivity. Qed.

Example test_phase_b_business_records_row :
  (fun row => CheckStatus.status (CrossReferenceRow.doc_b row)) <$>
  (build_phase_b_report fixtures.doc_a fixtures.doc_b ≫=
   fun report => PhaseBReport.cross_reference_matrix report !! 12)
  = Some NON_COMPLIANT.
Proof. vm_compute. reflexivity. Qed.

Example test_phase_b_defects :
  (fun report =>
     (bool_decide ("Missing statutory authority for preliminary test" ∈
                   map Defect.description (DefectReport.high report)),
      bool_decide ("Hearsay without exception: Neighbour recount" ∈
                   map Defect.description (DefectReport.high report)),
      map Defect.description (DefectReport.medium report) !! 3,
      map Defect.description (DefectReport.medium report) !! 4)) <$>
  _identify_defects fixtures.doc_a fixtures.doc_b
  = Some (true, true, Some "Missing exhibit descriptions",
          Some "Inconsistent offence date: Doc A 2024-05-10 vs Doc B 2024-05-11").
Proof. vm_compute. reflexivity. Qed.

Example test_phase_b_omissions :
  let omissions := _omissions fixtures.doc_a fixtures.doc_b in
  bool_decide ("mandatory disclosure complete" ∈
               OmissionsReport.elements_only_in_a omissions) = true ∧
  OmissionsReport.targeted_omissions omissions !! "s55d_in_accordance_language"
    = Some true ∧
  OmissionsReport.targeted_omissions omissions !! "s49_reason_to_believe"
    = Some true.
Proof. vm_compute. repeat split. Qed.

End ascii_documents_7.

(** ** The disclosure-matrix test of [tests/test_victoria_magistrates.py],
    and lookups under unknown names *)

Example test_disclosure_matrix_defence :
  court_knowledge.evaluate_disclosure_section "defence"
    (<["defence_timing" := true]>
       (<["defence_witnesses" := true]> (<["alibi_notice" := true]> ∅)))
  = inr [court_knowledge.ChecklistItem.mk "expert_evidence_notice"
           "Expert evidence notice"
           (Some "Criminal Procedure Act 2009 (Vic) s.185") None].
Proof. vm_compute. reflexivity. Qed.

Example test_unknown_section_raises :
  court_knowledge.evaluate_disclosure_section "court" ∅
  = inl (court_knowledge.KeyError "Unknown disclosure section: court").
Proof. vm_compute. reflexivity. Qed.

Example test_unknown_stage_raises :
  court_knowledge.MagistratesCourtProcedureChecker.evaluate_stage
    court_knowledge.MagistratesCourtProcedureChecker.__init__ "committal" ∅
  = inl (court_knowledge.KeyError "Unknown procedure stage: committal").
Proof. vm_compute. reflexivity. Qed.

(** * Further properties of the evaluators *)

Lemma list_truthy_false {A} (l : list A) : Py.list_truthy l = false ↔ l = [].
Proof. destruct l; simpl; split; congruence. Qed.

Lemma elem_of_if_singleton {A} (c : bool) (x y : A) :
  x ∈ (if c then [y] else []) ↔ c = true ∧ x = y.
Proof.
  destruct c.
  - rewrite list_elem_of_singleton. tauto.
  - split; [by intros ?%elem_of_nil|by intros [? _]].
Qed.

Lemma sublist_if_last {A} (c : bool) (y : A) :
  (if c then [y] else []) `sublist_of` [y].
Proof. destruct c; [done|]. apply sublist_nil_l. Qed.

Lemma sublist_if_singleton {A} (c : bool) (y : A) (l1 l2 : list A) :
  l1 `sublist_of` l2 → (if c then [y] else []) ++ l1 `sublist_of` y :: l2.
Proof. destruct c; simpl; [apply sublist_skip|apply sublist_cons]. Qed.

Lemma nonblank_holds_text {text : Py.Text} (o : option string) :
  PreliminaryTestRecord.nonblank o = true ↔ holds_text o.
Proof.
  unfold PreliminaryTestRecord.nonblank, holds_text. destruct o as [s|].
  - destruct s as [|c s]; simpl.
    + split; [done|]. intros (s' & [= <-] & Hs). destruct Hs. apply Py.strip_empty.
    + rewrite str_truthy_true. split; [eauto|]. by intros (s' & [= <-] & Hs).
  - split; [done|]. by intros (s' & ? & _).
Qed.

(** X1: CPA_DISCLOSURE is COMPLIANT exactly when the informant statement,
    at least one witness statement, the prior convictions and the exhibit
    list are all there, and NON_COMPLIANT otherwise (never UNCLEAR); its
    missing items are exactly the labels of the absent ones, in the fixed
    order of the four labels. *)
Theorem disclosure_items_status (document : DocumentProfile.t) :
  let d := DocumentProfile.disclosure document in
  let result := _disclosure_items document in
  let complete :=
    DisclosurePackage.informant_statement_provided d = true ∧
    DisclosurePackage.witness_statements d ≠ [] ∧
    DisclosurePackage.prior_convictions_disclosed d = true ∧
    DisclosurePackage.physical_exhibit_list_provided d = true in
  (CheckStatus.status result = COMPLIANT ↔ complete) ∧
  (CheckStatus.status result = NON_COMPLIANT ↔ ¬ complete) ∧
  CheckStatus.missing_items result = DisclosurePackage.missing_mandatory_items d ∧
  DisclosurePackage.missing_mandatory_items d `sublist_of` mandatory_labels ∧
  ∀ label,
    label ∈ DisclosurePackage.missing_mandatory_items d ↔
    (label = "informant statement" ∧
     DisclosurePackage.informant_statement_provided d = false) ∨
    (label = "witness statements" ∧ DisclosurePackage.witness_statements d = []) ∨
    (label = "prior convictions history" ∧
     DisclosurePackage.prior_convictions_disclosed d = false) ∨
    (label = "physical evidence list" ∧
     DisclosurePackage.physical_exhibit_list_provided d = false).
Proof.
  intros d result complete. subst result complete.
  unfold _disclosure_items. fold d.
  unfold DisclosurePackage.missing_mandatory_items.
  split; [|split; [|split; [|split]]].
  - destruct (DisclosurePackage.informant_statement_provided d),
      (DisclosurePackage.witness_statements d),
      (DisclosurePackage.prior_convictions_disclosed d),
      (DisclosurePackage.physical_exhibit_list_provided d); simpl;
      intuition congruence.
  - destruct (DisclosurePackage.informant_statement_provided d),
      (DisclosurePackage.witness_statements d),
      (DisclosurePackage.prior_convictions_disclosed d),
      (DisclosurePackage.physical_exhibit_list_provided d); simpl;
      intuition congruence.
  - destruct (DisclosurePackage.informant_statement_provided d),
      (DisclosurePackage.witness_statements d),
      (DisclosurePackage.prior_convictions_disclosed d),
      (DisclosurePackage.physical_exhibit_list_provided d); reflexivity.
  - unfold mandatory_labels. repeat apply sublist_if_singleton.
    apply sublist_if_last.
  - intros label. rewrite !elem_of_app, !elem_of_if_singleton.
    rewrite !negb_true_iff, list_truthy_false. tauto.
Qed.

Lemma mapped_filter_truthy {A B} (g : A → B) (f : A → bool) (l : list A) :
  Py.list_truthy (map g (List.filter f l)) = true ↔ ∃ x, x ∈ l ∧ f x = true.
Proof.
  induction l as [|a l IH]; simpl.
  - split; [done|]. intros (x & Hx & _). by apply elem_of_nil in Hx.
  - destruct (f a) eqn:Ha; simpl.
    + split; [|done]. intros _. exists a. split; [by left|done].
    + rewrite IH. split.
      * intros (x & Hx & Hf). exists x. split; [by right|done].
      * intros (x & Hx & Hf). apply elem_of_cons in Hx as [->|Hx]; [congruence|].
        by exists x.
Qed.

Lemma mapped_filter_elem_of {A B} (g : A → B) (f : A → bool) (l : list A) (y : B) :
  y ∈ map g (List.filter f l) ↔ ∃ x, x ∈ l ∧ g x = y ∧ f x = true.
Proof.
  rewrite list_elem_of_fmap. split.
  - intros (x & -> & Hx). apply list_elem_of_In, filter_In in Hx as [Hx Hf].
    exists x. by rewrite list_elem_of_In.
  - intros (x & Hx & <- & Hf). exists x. split; [done|].
    apply list_elem_of_In, filter_In. by rewrite <- list_elem_of_In.
Qed.

Lemma mapped_filter_length {A B} (g : A → B) (f : A → bool) (l : list A) :
  length (map g (List.filter f l)) ≤ length l.
Proof. rewrite length_map. apply filter_length_le. Qed.

(** X2: CPA_STATEMENTS is NON_COMPLIANT exactly when some witness statement
    is unsigned or undated, UNCLEAR exactly when there is no witness
    statement at all, and COMPLIANT exactly when there is at least one and
    all are signed and dated; its missing items are the names of the
    defective statements, at most one per statement. *)
Theorem statement_execution_status (document : DocumentProfile.t) :
  let statements :=
    DisclosurePackage.witness_statements (DocumentProfile.disclosure document) in
  let result := _statement_execution document in
  let defective st :=
    WitnessStatement.signed st = false ∨ WitnessStatement.dated st = false in
  (CheckStatus.status result = NON_COMPLIANT ↔
   ∃ st, st ∈ statements ∧ defective st) ∧
  (CheckStatus.status result = UNCLEAR ↔ statements = []) ∧
  (CheckStatus.status result = COMPLIANT ↔
   statements ≠ [] ∧ ∀ st, st ∈ statements → ¬ defective st) ∧
  (∀ name, name ∈ CheckStatus.missing_items result ↔
           ∃ st, st ∈ statements ∧ WitnessStatement.name st = name ∧ defective st) ∧
  length (CheckStatus.missing_items result) ≤ length statements.
Proof.
  intros statements result defective.
  assert (∀ st, negb (WitnessStatement.signed st) || negb (WitnessStatement.dated st)
                = true ↔ defective st) as Hdef.
  { intros st. subst defective. simpl.
    rewrite orb_true_iff, !negb_true_iff. tauto. }
  assert (CheckStatus.missing_items result =
          DisclosurePackage.unsigned_or_undated_statements
            (DocumentProfile.disclosure document)) as Hmissing.
  { subst result. unfold _statement_execution.
    destruct (Py.list_truthy (DisclosurePackage.unsigned_or_undated_statements _))
      eqn:Ht; [done|].
    apply list_truthy_false in Ht. rewrite Ht. by destruct (negb _). }
  pose proof (mapped_filter_truthy WitnessStatement.name
    (fun st => negb (WitnessStatement.signed st) || negb (WitnessStatement.dated st))
    statements) as Htruthy.
  assert ((∃ st, st ∈ statements ∧ defective st) ↔
          Py.list_truthy (DisclosurePackage.unsigned_or_undated_statements
                            (DocumentProfile.disclosure document)) = true) as Hex.
  { unfold DisclosurePackage.unsigned_or_undated_statements. fold statements.
    rewrite Htruthy. split; intros (st & Hst & H); exists st; by rewrite Hdef in *. }
  clear Htruthy.
  split; [|split; [|split; [|split]]].
  - rewrite Hex. subst result. unfold _statement_execution.
    destruct (Py.list_truthy (DisclosurePackage.unsigned_or_undated_statements _));
      [done|]. by destruct (negb _).
  - subst result. unfold _statement_execution. fold statements.
    destruct (Py.list_truthy (DisclosurePackage.unsigned_or_undated_statements _))
      eqn:Ht.
    + split; [done|]. intros Hnil.
      destruct (proj2 Hex eq_refl) as (st & Hst & _).
      rewrite Hnil in Hst. by apply elem_of_nil in Hst.
    + by destruct statements.
  - subst result. unfold _statement_execution. fold statements.
    destruct (Py.list_truthy (DisclosurePackage.unsigned_or_undated_statements _))
      eqn:Ht.
    + split; [done|]. intros [_ Hall].
      destruct (proj2 Hex eq_refl) as (st & Hst & Hd). by apply Hall in Hd.
    + assert (∀ st, st ∈ statements → ¬ defective st) as Hall.
      { intros st Hst Hd. assert (false = true); [|done]. apply Hex. eauto. }
      destruct statements; simpl; [|done]. split; [done|]. by intros [? _].
  - intros name. rewrite Hmissing.
    unfold DisclosurePackage.unsigned_or_undated_statements. fold statements.
    rewrite mapped_filter_elem_of.
    split; intros (st & Hst & Hn & H); exists st; by rewrite Hdef in *.
  - rewrite Hmissing. apply mapped_filter_length.
Qed.

(** X3: RSA_AUTHORITY is COMPLIANT exactly when the statutory authority
    holds text and is not flagged ambiguous, UNCLEAR exactly when it holds
    text and is flagged, and NON_COMPLIANT exactly when it holds no text:
    absent, or trimmed by [strip] to the empty string, whatever the flag. *)
Theorem statutory_authority_status {text : Py.Text} (document : DocumentProfile.t) :
  let preliminary := DocumentProfile.preliminary_test document in
  let result := _statutory_authority document in
  let present := holds_text (PreliminaryTestRecord.statutory_authority preliminary) in
  let ambiguous := PreliminaryTestRecord.authority_is_ambiguous preliminary in
  (CheckStatus.status result = COMPLIANT ↔ present ∧ ambiguous = false) ∧
  (CheckStatus.status result = UNCLEAR ↔ present ∧ ambiguous = true) ∧
  (CheckStatus.status result = NON_COMPLIANT ↔ ¬ present) ∧
  (∀ s, PreliminaryTestRecord.statutory_authority preliminary = Some s →
        Py.strip s = EmptyString →
        CheckStatus.status result = NON_COMPLIANT).
Proof.
  intros preliminary result present ambiguous. subst result present ambiguous.
  unfold _statutory_authority, PreliminaryTestRecord.has_statutory_authority.
  fold preliminary.
  pose proof (nonblank_holds_text
                (PreliminaryTestRecord.statutory_authority preliminary)) as Hp.
  destruct (PreliminaryTestRecord.nonblank _) eqn:Hn,
    (PreliminaryTestRecord.authority_is_ambiguous preliminary); simpl.
  all: split; [|split; [|split]]; try (intuition congruence).
  all: intros s Hs Hstrip; try done.
  all: exfalso; destruct Hp as [Hp _]; destruct (Hp eq_refl) as (s' & Hs' & Hne);
    congruence.
Qed.

Section ascii_documents_8.
#[local] Existing Instance Py.ascii_text.

Lemma statutory_authority_status_witness :
  CheckStatus.status
    (_statutory_authority
       (DocumentProfile.mk "Doc"
          (DocumentProfile.disclosure fixtures.blank)
          (PreliminaryTestRecord.mk (Some "  ") false None false false false true []
             None None [] [] None None [])
          (DocumentProfile.evidence fixtures.blank) [] [] [] ∅ [] [] []))
  = NON_COMPLIANT.
Proof.
  eapply (statutory_authority_status
            (DocumentProfile.mk "Doc"
               (DocumentProfile.disclosure fixtures.blank)
               (PreliminaryTestRecord.mk (Some "  ") false None false false false true []
                  None None [] [] None None [])
               (DocumentProfile.evidence fixtures.blank) [] [] [] ∅ [] [] [])).
  - reflexivity.
  - reflexivity.
Defined.

End ascii_documents_8.

(** X4: EA_60_69 is NON_COMPLIANT exactly when some hearsay item has no
    claimed exception or an unsupported one (an item marked supported but
    with no exception claimed counts), and COMPLIANT otherwise, also when no
    hearsay is tendered; it is never UNCLEAR, and its missing items are the
    descriptions of the offending items. *)
Theorem hearsay_exceptions_status (document : DocumentProfile.t) :
  let items := EvidenceProfile.hearsay_items (DocumentProfile.evidence document) in
  let result := _hearsay_exceptions document in
  let unsupported item :=
    HearsayEntry.exception_claimed item = None ∨
    HearsayEntry.exception_supported item = false in
  (CheckStatus.status result = NON_COMPLIANT ↔ ∃ item, item ∈ items ∧ unsupported item) ∧
  (CheckStatus.status result = COMPLIANT ↔ ∀ item, item ∈ items → ¬ unsupported item) ∧
  CheckStatus.status result ≠ UNCLEAR ∧
  (∀ text, text ∈ CheckStatus.missing_items result ↔
           ∃ item, item ∈ items ∧ HearsayEntry.description item = text ∧
                   unsupported item).
Proof.
  intros items result unsupported.
  set (f := fun item =>
         match HearsayEntry.exception_claimed item with
         | None => true
         | Some _ => negb (HearsayEntry.exception_supported item)
         end).
  assert (∀ item, f item = true ↔ unsupported item) as Hf.
  { intros item. subst f unsupported. simpl.
    destruct (HearsayEntry.exception_claimed item),
      (HearsayEntry.exception_supported item); simpl; intuition congruence. }
  assert (EvidenceProfile.hearsay_without_exception (DocumentProfile.evidence document)
          = map HearsayEntry.description (List.filter f items)) as Hw by reflexivity.
  assert ((∃ item, item ∈ items ∧ unsupported item) ↔
          Py.list_truthy (map HearsayEntry.description (List.filter f items)) = true)
    as Hex.
  { rewrite mapped_filter_truthy.
    split; intros (x & Hx & H); exists x; by rewrite Hf in *. }
  assert (CheckStatus.missing_items result
          = map HearsayEntry.description (List.filter f items)) as Hmissing.
  { subst result. unfold _hearsay_exceptions. rewrite Hw.
    destruct (Py.list_truthy (map _ _)) eqn:Ht; [done|].
    apply list_truthy_false in Ht. rewrite Ht. by destruct (Py.list_truthy _). }
  assert (CheckStatus.status result =
          if Py.list_truthy (map HearsayEntry.description (List.filter f items))
          then NON_COMPLIANT else COMPLIANT) as Hstatus.
  { subst result. unfold _hearsay_exceptions. rewrite Hw.
    destruct (Py.list_truthy (map _ _)); [done|]. by destruct (Py.list_truthy _). }
  rewrite Hstatus, Hmissing. split; [|split; [|split]].
  - rewrite Hex. by destruct (Py.list_truthy _).
  - destruct (Py.list_truthy (map _ _)) eqn:Ht.
    + split; [done|]. intros Hall. destruct (proj2 Hex eq_refl) as (x & Hx & Hu).
      by apply Hall in Hu.
    + split; [|done]. intros _ x Hx Hu. assert (false = true); [|done].
      apply Hex. eauto.
  - by destruct (Py.list_truthy _).
  - intros text. rewrite mapped_filter_elem_of.
    split; intros (x & Hx & Ht & H); exists x; by rewrite Hf in *.
Qed.

(** X5: EA_138 is COMPLIANT exactly when no exclusion factor is recorded,
    NON_COMPLIANT exactly when factors are recorded with no mitigation step,
    and UNCLEAR exactly when both factors and mitigation steps are recorded;
    mitigation steps without factors change nothing. *)
Theorem section_138_status (document : DocumentProfile.t) :
  let evidence := DocumentProfile.evidence document in
  let factors := EvidenceProfile.s138_exclusion_factors evidence in
  let mitigation := EvidenceProfile.s138_mitigation_steps evidence in
  let result := _section_138 document in
  (EvidenceProfile.has_unlawful_obtainment_risk evidence = true ↔
   factors ≠ [] ∧ mitigation = []) ∧
  (CheckStatus.status result = COMPLIANT ↔ factors = []) ∧
  (CheckStatus.status result = NON_COMPLIANT ↔ factors ≠ [] ∧ mitigation = []) ∧
  (CheckStatus.status result = UNCLEAR ↔ factors ≠ [] ∧ mitigation ≠ []) ∧
  CheckStatus.missing_items result = factors.
Proof.
  intros evidence factors mitigation result. subst result.
  unfold _section_138, EvidenceProfile.has_unlawful_obtainment_risk.
  fold evidence. fold factors mitigation.
  destruct factors, mitigation; simpl; intuition congruence.
Qed.

(** X6: RSA_55E is COMPLIANT exactly when performance indicators, a
    non-empty device approval number and calibration or maintenance records
    are all present, NON_COMPLIANT otherwise and never UNCLEAR; its missing
    items are exactly the labels of the absent elements, in fixed order. *)
Theorem proper_performance_status (document : DocumentProfile.t) :
  let p := DocumentProfile.preliminary_test document in
  let result := _proper_performance document in
  let indicators := PreliminaryTestRecord.proper_performance_indicators p ≠ [] in
  let approval :=
    ∃ number, PreliminaryTestRecord.device_approval_number p = Some number ∧
              number ≠ EmptyString in
  let records :=
    PreliminaryTestRecord.calibration_records p ≠ [] ∨
    PreliminaryTestRecord.maintenance_records p ≠ [] in
  (CheckStatus.status result = COMPLIANT ↔ indicators ∧ approval ∧ records) ∧
  (CheckStatus.status result = NON_COMPLIANT ↔ ¬ (indicators ∧ approval ∧ records)) ∧
  CheckStatus.missing_items result `sublist_of` performance_labels ∧
  (∀ label, label ∈ CheckStatus.missing_items result ↔
     (label = "performance indicators" ∧ ¬ indicators) ∨
     (label = "device approval number" ∧ ¬ approval) ∨
     (label = "calibration/maintenance records" ∧ ¬ records)).
Proof.
  intros p result indicators approval records.
  assert (PreliminaryTestRecord.has_proper_performance_indicators p = true ↔ indicators)
    as Hi by apply list_truthy_true.
  assert (Py.opt_str_truthy (PreliminaryTestRecord.device_approval_number p) = true
          ↔ approval) as Ha.
  { subst approval. simpl.
    destruct (PreliminaryTestRecord.device_approval_number p) as [[|c n]|]; simpl.
    - split; [done|]. by intros (n & [= <-] & Hn).
    - split; [|done]. intros _. by eexists.
    - split; [done|]. by intros (n & ? & _). }
  assert (PreliminaryTestRecord.calibration_complete p = true ↔ records) as Hr.
  { subst records. simpl. unfold PreliminaryTestRecord.calibration_complete.
    destruct (PreliminaryTestRecord.calibration_records p),
      (PreliminaryTestRecord.maintenance_records p); simpl; intuition congruence. }
  subst result. unfold _proper_performance. fold p.
  destruct (PreliminaryTestRecord.has_proper_performance_indicators p),
    (Py.opt_str_truthy (PreliminaryTestRecord.device_approval_number p)),
    (PreliminaryTestRecord.calibration_complete p); simpl.
  all: split; [|split; [|split]].
  all: try (intuition congruence).
  all: try (unfold performance_labels;
            repeat first [apply sublist_nil | apply sublist_skip | apply sublist_cons]).
  all: intros label; rewrite ?elem_of_cons, ?elem_of_nil;
    split; [intros H|intros H]; intuition (try congruence).
Qed.

(** X7: six registry evaluators never answer UNCLEAR (CPA_DISCLOSURE,
    RSA_REASON, RSA_55D1, RSA_55D2, RSA_55E, EA_60_69) and two never answer
    NON_COMPLIANT (EA_59, EA_137), on any profile. *)
Theorem statuses_never_produced {text : Py.Text} (document : DocumentProfile.t) :
  Forall
    (fun key => ∃ result,
       _evaluate_document document !! key = Some result ∧
       CheckStatus.status result ≠ UNCLEAR)
    ["CPA_DISCLOSURE"; "RSA_REASON"; "RSA_55D1"; "RSA_55D2"; "RSA_55E"; "EA_60_69"] ∧
  Forall
    (fun key => ∃ result,
       _evaluate_document document !! key = Some result ∧
       CheckStatus.status result ≠ NON_COMPLIANT)
    ["EA_59"; "EA_137"].
Proof.
  split; repeat apply Forall_cons_2; try apply Forall_nil_2;
    (eexists; split; [by rewrite evaluate_document_lookup|]).
  - evaluator_cases _disclosure_items.
  - evaluator_cases _reason_to_believe.
  - evaluator_cases _directions_language.
  - evaluator_cases _oral_directions.
  - evaluator_cases _proper_performance.
  - evaluator_cases _hearsay_exceptions.
  - evaluator_cases _hearsay_flagged.
  - evaluator_cases _section_137.
Qed.

(** ** Defects against evaluations *)

Lemma elem_of_defect_if_true (cond : bool) (d d' : Defect.t) :
  d ∈ defect_if cond d' → cond = true ∧ d = d'.
Proof.
  destruct cond; simpl; intros H.
  - by apply list_elem_of_singleton in H.
  - by apply elem_of_nil in H.
Qed.

(** X8: every HIGH defect found in a document comes with a NON_COMPLIANT
    entry in that document's evaluation; hence a document whose fifteen
    evaluations are all COMPLIANT has no HIGH defect. *)
Theorem high_defect_implies_non_compliance {text : Py.Text} (document : DocumentProfile.t) :
  (∀ d, d ∈ _identify_doc_defects document → Defect.severity d = HIGH →
        ∃ key result,
          _evaluate_document document !! key = Some result ∧
          CheckStatus.status result = NON_COMPLIANT) ∧
  ((∀ key result, _evaluate_document document !! key = Some result →
                  CheckStatus.status result = COMPLIANT) →
   of_severity HIGH (_identify_doc_defects document) = []).
Proof.
  assert (∀ d, d ∈ _identify_doc_defects document → Defect.severity d = HIGH →
        ∃ key result,
          _evaluate_document document !! key = Some result ∧
          CheckStatus.status result = NON_COMPLIANT) as Hhigh.
  { intros d Hd Hsev. unfold _identify_doc_defects in Hd.
    repeat (apply elem_of_app in Hd as [Hd|Hd]);
      apply elem_of_defect_if_true in Hd as [Hc ->]; try discriminate Hsev.
    - exists "RSA_AUTHORITY", (_statutory_authority document).
      split; [by rewrite evaluate_document_lookup|].
      apply negb_true_iff in Hc. unfold _statutory_authority. rewrite Hc.
      simpl. by rewrite andb_false_r.
    - exists "RSA_REASON", (_reason_to_believe document).
      split; [by rewrite evaluate_document_lookup|].
      apply negb_true_iff in Hc. unfold _reason_to_believe. by rewrite Hc.
    - exists "RSA_55D1", (_directions_language document).
      split; [by rewrite evaluate_document_lookup|].
      unfold _directions_language. rewrite Hc.
      by destruct (PreliminaryTestRecord.directions_compliance_language _).
    - exists "RSA_55E", (_proper_performance document).
      split; [by rewrite evaluate_document_lookup|].
      unfold _proper_performance. rewrite Hc. done.
    - exists "CPA_STATEMENTS", (_statement_execution document).
      split; [by rewrite evaluate_document_lookup|].
      unfold _statement_execution. by rewrite Hc.
    - exists "CPA_DISCLOSURE", (_disclosure_items document).
      split; [by rewrite evaluate_document_lookup|].
      unfold _disclosure_items. by rewrite Hc.
    - exists "EA_60_69", (_hearsay_exceptions document).
      split; [by rewrite evaluate_document_lookup|].
      unfold _hearsay_exceptions. by rewrite Hc.
    - exists "EA_138", (_section_138 document).
      split; [by rewrite evaluate_document_lookup|].
      unfold _section_138. by rewrite Hc. }
  split; [exact Hhigh|].
  intros Hall. unfold of_severity. apply filter_none.
  intros d Hd Hsev. destruct (Hhigh d Hd Hsev) as (key & result & Hlook & Hst).
  apply Hall in Hlook. congruence.
Qed.

Section ascii_documents_9.
#[local] Existing Instance Py.ascii_text.

Lemma high_defect_implies_non_compliance_witness :
  of_severity HIGH (_identify_doc_defects fixtures.doc_a) = [].
Proof.
  apply (high_defect_implies_non_compliance fixtures.doc_a).
  intros key result. rewrite evaluate_document_lookup.
  destruct (List.find _ PROVISIONS) as [p|] eqn:Hfind; [|done].
  intros [= <-]. apply find_some in Hfind as [Hin _].
  apply list_elem_of_In in Hin. unfold PROVISIONS in Hin.
  repeat (apply elem_of_cons in Hin as [->|Hin]); [..|by apply elem_of_nil in Hin];
    reflexivity.
Defined.

End ascii_documents_9.

(** ** Shape of the defect report *)

Lemma of_severity_defect_if (s : Severity) (cond : bool) (d : Defect.t)
    (rest : list Defect.t) :
  of_severity s (defect_if cond d ++ rest) =
    (if bool_decide (Defect.severity d = s) then defect_if cond d else []) ++
    of_severity s rest.
Proof.
  unfold of_severity. rewrite filter_app. f_equal.
  destruct cond; simpl; [|by case_bool_decide].
  rewrite filter_cons, filter_nil. case_bool_decide; by case_decide.
Qed.

Lemma defect_if_length (cond : bool) (d : Defect.t) : length (defect_if cond d) ≤ 1.
Proof. destruct cond; simpl; lia. Qed.

Lemma doc_defects_by_severity {text : Py.Text} (document : DocumentProfile.t) :
  length (of_severity HIGH (_identify_doc_defects document)) ≤ 8 ∧
  length (of_severity MEDIUM (_identify_doc_defects document)) ≤ 4 ∧
  length (of_severity LOW (_identify_doc_defects document)) ≤ 3.
Proof.
  unfold _identify_doc_defects.
  repeat split.
  all: rewrite !of_severity_defect_if.
  all: match goal with
       | |- context [of_severity ?s (defect_if ?c ?d)] =>
           rewrite <- (app_nil_r (defect_if c d)), (of_severity_defect_if s c d [])
       end.
  all: cbn [Defect.severity]; rewrite !length_app.
  all: repeat match goal with
       | |- context [bool_decide (?x = ?y)] =>
           first [rewrite (bool_decide_eq_true_2 (x = y)) by reflexivity
                 |rewrite (bool_decide_eq_false_2 (x = y)) by discriminate]
       end.
  all: repeat match goal with
       | |- context [length (defect_if ?c ?d)] =>
           let n := fresh "n" in
           pose proof (defect_if_length c d);
           set (n := length (defect_if c d)) in *; clearbody n
       end.
  all: simpl; lia.
Qed.

Lemma doc_defects_named {text : Py.Text} (document : DocumentProfile.t) :
  Forall (fun d => Defect.document d = DocumentProfile.name document)
    (_identify_doc_defects document).
Proof.
  apply Forall_forall. intros d Hd. unfold _identify_doc_defects in Hd.
  repeat (apply elem_of_app in Hd as [Hd|Hd]);
    by apply elem_of_defect_if in Hd as ->.
Qed.

Lemma date_defects_length (doc_a doc_b : DocumentProfile.t) (keys : list string) :
  length (concat (map (date_defects_for doc_a doc_b) keys)) ≤ length keys.
Proof.
  induction keys as [|k keys IH]; simpl; [lia|]. rewrite length_app.
  destruct (date_defects_for_shape doc_a doc_b k) as [-> | [d ->]]; simpl; lia.
Qed.

Lemma date_defects_shape (doc_a doc_b : DocumentProfile.t) (keys : list string) :
  Forall (fun d => Defect.severity d = MEDIUM ∧ Defect.document d = "Doc A & Doc B" ∧
                   Defect.statutory_reference d = None)
    (concat (map (date_defects_for doc_a doc_b) keys)).
Proof.
  apply Forall_concat, Forall_fmap, Forall_forall. intros k _. simpl.
  unfold date_defects_for. repeat case_match; repeat constructor.
Qed.

(** X9: the defect report of any two documents files every defect under
    its own severity; HIGH and LOW defects are attributed to one of the two
    documents by name, MEDIUM ones to a document or to "Doc A & Doc B"; a
    report holds at most 16 HIGH and 6 LOW defects, and at most 8 MEDIUM
    defects plus one per key the two key-dates mappings share. *)
Theorem defect_report_shape {text : Py.Text} (doc_a doc_b : DocumentProfile.t) :
  let named d :=
    Defect.document d = DocumentProfile.name doc_a ∨
    Defect.document d = DocumentProfile.name doc_b in
  ∃ report,
    _identify_defects doc_a doc_b = Some report ∧
    Forall (fun d => Defect.severity d = HIGH ∧ named d) (DefectReport.high report) ∧
    Forall (fun d => Defect.severity d = MEDIUM ∧
                     (named d ∨ Defect.document d = "Doc A & Doc B"))
      (DefectReport.medium report) ∧
    Forall (fun d => Defect.severity d = LOW ∧ named d) (DefectReport.low report) ∧
    length (DefectReport.high report) ≤ 16 ∧
    length (DefectReport.medium report) ≤
      8 + size (dom (DocumentProfile.key_dates doc_a) ∩
                dom (DocumentProfile.key_dates doc_b)) ∧
    length (DefectReport.low report) ≤ 6.
Proof.
  intros named.
  pose proof (identify_defects_report doc_a doc_b) as Hreport. simpl in Hreport.
  eexists. split; [exact Hreport|]. simpl.
  assert (∀ s, Forall (fun d => Defect.severity d = s ∧ named d)
                 (of_severity s (_identify_doc_defects doc_a ++
                                 _identify_doc_defects doc_b))) as Hper.
  { intros s. apply Forall_forall. intros d Hd. unfold of_severity in Hd.
    apply list_elem_of_filter in Hd as [Hs Hd]. split; [done|].
    apply elem_of_app in Hd as [Hd|Hd]; [left|right].
    - by apply (proj1 (Forall_forall _ _) (doc_defects_named doc_a)).
    - by apply (proj1 (Forall_forall _ _) (doc_defects_named doc_b)). }
  pose proof (doc_defects_by_severity doc_a) as (Ha1 & Ha2 & Ha3).
  pose proof (doc_defects_by_severity doc_b) as (Hb1 & Hb2 & Hb3).
  split; [apply Hper|]. split.
  { apply Forall_app. split.
    - eapply Forall_impl; [apply Hper|]. simpl. tauto.
    - eapply Forall_impl; [apply date_defects_shape|]. simpl. tauto. }
  split; [apply Hper|].
  unfold of_severity in *. rewrite !filter_app, !length_app.
  split; [lia|]. split; [|lia].
  pose proof (date_defects_length doc_a doc_b (Py.sorted (shared_dates doc_a doc_b)))
    as Hlen.
  assert (length (Py.sorted (shared_dates doc_a doc_b)) =
          size (dom (DocumentProfile.key_dates doc_a) ∩
                dom (DocumentProfile.key_dates doc_b))) as Hsize.
  { unfold Py.sorted. by rewrite merge_sort_Permutation. }
  lia.
Qed.

Lemma of_severity_partition_length (defects : list Defect.t) :
  length (of_severity HIGH defects) + length (of_severity MEDIUM defects) +
  length (of_severity LOW defects) = length defects.
Proof.
  unfold of_severity. induction defects as [|d ds IH]; [done|].
  rewrite !filter_cons. destruct (Defect.severity d) eqn:Hd;
    repeat case_decide; try congruence; simpl; lia.
Qed.

Lemma of_severity_partition_occurrences (x : Defect.t) (defects : list Defect.t) :
  occurrences x (of_severity HIGH defects) + occurrences x (of_severity MEDIUM defects) +
  occurrences x (of_severity LOW defects) = occurrences x defects.
Proof.
  unfold of_severity, occurrences. induction defects as [|d ds IH]; [done|].
  rewrite !filter_cons. destruct (Defect.severity d) eqn:Hd;
    repeat (case_decide; try congruence; rewrite ?filter_cons; simpl); lia.
Qed.

(** X10: adding defects to a report only appends: each of the three lists
    keeps its former content as a prefix, every added defect is stored
    exactly once (equal defects are not merged), so the report grows by the
    number of defects added. *)
Theorem defect_report_accumulates (report : DefectReport.t) (defects : list Defect.t) :
  let report' := foldl DefectReport.add report defects in
  DefectReport.high report `prefix_of` DefectReport.high report' ∧
  DefectReport.medium report `prefix_of` DefectReport.medium report' ∧
  DefectReport.low report `prefix_of` DefectReport.low report' ∧
  length (all_defects report') = length (all_defects report) + length defects ∧
  ∀ d, occurrences d (all_defects report') =
       occurrences d (all_defects report) + occurrences d defects.
Proof.
  intros report'. subst report'. rewrite add_all_defects. simpl.
  split; [by eexists|]. split; [by eexists|]. split; [by eexists|].
  unfold all_defects. simpl. split.
  - rewrite !length_app. pose proof (of_severity_partition_length defects). lia.
  - intros d. rewrite !occurrences_app.
    pose proof (of_severity_partition_occurrences d defects). lia.
Qed.

(** ** Comparing a document with itself, and swapping the two documents *)

Lemma build_phase_b_report_parts {text : Py.Text} (doc_a doc_b : DocumentProfile.t) :
  ∃ rows defects,
    build_phase_b_report doc_a doc_b =
      Some (PhaseBReport.mk rows defects (_omissions doc_a doc_b)) ∧
    _identify_defects doc_a doc_b = Some defects ∧
    Forall2
      (fun p row =>
         cross_reference_row (_evaluate_document doc_a) (_evaluate_document doc_b) p
           = Some row)
      PROVISIONS rows.
Proof.
  destruct (build_cross_reference_rows doc_a doc_b) as (rows & Hrows & Hall).
  destruct (_identify_defects doc_a doc_b) as [defects|] eqn:Hdef;
    [|rewrite identify_defects_report in Hdef; discriminate Hdef].
  exists rows, defects. unfold build_phase_b_report. rewrite Hrows, Hdef.
  split; [reflexivity|]. split; [reflexivity|exact Hall].
Qed.

Lemma row_components {text : Py.Text} (results_a results_b : gmap string CheckStatus.t)
    (p : StatutoryProvision.t) (row : CrossReferenceRow.t) :
  cross_reference_row results_a results_b p = Some row →
  results_a !! StatutoryProvision.key p = Some (CrossReferenceRow.doc_a row) ∧
  results_b !! StatutoryProvision.key p = Some (CrossReferenceRow.doc_b row) ∧
  CrossReferenceRow.statutory_provision row = StatutoryProvision.label p.
Proof.
  unfold cross_reference_row. intros Hrow.
  destruct (results_a !! _) as [sa|]; [|discriminate Hrow].
  destruct (results_b !! _) as [sb|]; [|discriminate Hrow].
  cbv beta iota delta [mbind option_bind] in Hrow.
  injection Hrow as <-. repeat split.
Qed.

Lemma summarise_discrepancies_none (status_a status_b : CheckStatus.t) :
  _summarise_discrepancies status_a status_b = "None" ↔
  CheckStatus.status status_a = CheckStatus.status status_b ∧
  ∀ x, x ∈ CheckStatus.missing_items status_a ↔ x ∈ CheckStatus.missing_items status_b.
Proof.
  destruct (summarise_discrepancies_described status_a status_b)
    as [(_ & _ & Hdiff) [Hnone _]].
  rewrite Hnone. split; intros [Hst Hd]; (split; [done|]).
  - intros x. pose proof (Hdiff x) as Hx. rewrite Hd in Hx.
    destruct (decide (x ∈ CheckStatus.missing_items status_a)),
      (decide (x ∈ CheckStatus.missing_items status_b)); try tauto.
    + exfalso. eapply elem_of_nil, Hx. tauto.
    + exfalso. eapply elem_of_nil, Hx. tauto.
  - match goal with |- ?l = [] => destruct l as [|y l'] eqn:Hl end; [done|].
    exfalso. pose proof (proj1 (Hdiff y)) as Hy.
    specialize (Hy ltac:(by left)). rewrite Hd in Hy. tauto.
Qed.

Lemma dates_conflict_comm (date_a date_b : string) :
  dates_conflict date_a date_b = dates_conflict date_b date_a.
Proof.
  apply eq_true_iff_eq. rewrite !dates_conflict_true. intuition congruence.
Qed.

Lemma date_defects_for_self (document : DocumentProfile.t) (keys : list string) :
  concat (map (date_defects_for document document) keys) = [].
Proof.
  induction keys as [|k keys IH]; [done|]. simpl. rewrite IH, app_nil_r.
  unfold date_defects_for. destruct (_ !! k) as [d|]; [|done].
  assert (dates_conflict d d = false) as ->; [|done].
  apply not_true_is_false. rewrite dates_conflict_true. tauto.
Qed.

Lemma date_defects_for_swap_length (doc_a doc_b : DocumentProfile.t)
    (keys : list string) :
  length (concat (map (date_defects_for doc_a doc_b) keys)) =
  length (concat (map (date_defects_for doc_b doc_a) keys)).
Proof.
  induction keys as [|k keys IH]; [done|]. simpl. rewrite !length_app, IH.
  f_equal. unfold date_defects_for.
  destruct (DocumentProfile.key_dates doc_a !! k) as [da|],
    (DocumentProfile.key_dates doc_b !! k) as [db|]; try done.
  rewrite (dates_conflict_comm db da). by destruct (dates_conflict da db).
Qed.

Lemma sorted_difference_self (s : gset string) : Py.sorted (s ∖ s) = [].
Proof. apply sorted_nil. apply difference_diag_L. Qed.

(** X11: comparing a document with itself reports no difference: every
    row carries the same result on both sides and [discrepancies] "None",
    each per-document defect appears twice and no cross-document date defect
    is raised, the four only-in-A lists are empty and every targeted omission
    is false. *)
Theorem self_comparison {text : Py.Text} (document : DocumentProfile.t) :
  let per_document := _identify_doc_defects document in
  ∃ report,
    build_phase_b_report document document = Some report ∧
    Forall
      (fun row =>
         CrossReferenceRow.doc_a row = CrossReferenceRow.doc_b row ∧
         CrossReferenceRow.discrepancies row = "None")
      (PhaseBReport.cross_reference_matrix report) ∧
    DefectReport.high (PhaseBReport.defects report) =
      of_severity HIGH per_document ++ of_severity HIGH per_document ∧
    DefectReport.medium (PhaseBReport.defects report) =
      of_severity MEDIUM per_document ++ of_severity MEDIUM per_document ∧
    DefectReport.low (PhaseBReport.defects report) =
      of_severity LOW per_document ++ of_severity LOW per_document ∧
    OmissionsReport.elements_only_in_a (PhaseBReport.omissions report) = [] ∧
    OmissionsReport.statutory_refs_only_in_a (PhaseBReport.omissions report) = [] ∧
    OmissionsReport.facts_only_in_a (PhaseBReport.omissions report) = [] ∧
    OmissionsReport.procedures_only_in_a (PhaseBReport.omissions report) = [] ∧
    ∀ probe value,
      OmissionsReport.targeted_omissions (PhaseBReport.omissions report) !! probe
        = Some value →
      value = false.
Proof.
  intros per_document.
  destruct (build_phase_b_report_parts document document)
    as (rows & defects & Hbuild & Hdefects & Hrows).
  eexists. split; [exact Hbuild|]. cbn [PhaseBReport.cross_reference_matrix
    PhaseBReport.defects PhaseBReport.omissions].
  split.
  { eapply rows_satisfy; [|exact Hrows]. intros p row Hrow.
    destruct (row_components _ _ _ _ Hrow) as (Ha & Hb & _).
    assert (CrossReferenceRow.doc_a row = CrossReferenceRow.doc_b row) as Hsame
      by congruence.
    split; [done|]. rewrite (row_discrepancies _ _ _ _ Hrow), Hsame.
    apply summarise_discrepancies_none. split; [reflexivity|]. intros x. tauto. }
  rewrite identify_defects_report in Hdefects. injection Hdefects as <-.
  cbn [DefectReport.high DefectReport.medium DefectReport.low].
  fold per_document. unfold of_severity. rewrite !filter_app.
  rewrite date_defects_for_self, app_nil_r.
  split; [done|]. split; [done|]. split; [done|].
  unfold _omissions.
  cbn [OmissionsReport.elements_only_in_a OmissionsReport.statutory_refs_only_in_a
       OmissionsReport.facts_only_in_a OmissionsReport.procedures_only_in_a
       OmissionsReport.targeted_omissions].
  rewrite !sorted_difference_self.
  split; [done|]. split; [done|]. split; [done|]. split; [done|].
  intros probe value Hlook. unfold _targeted_omission in Hlook.
  repeat (apply lookup_insert_Some in Hlook as [[_ <-]|[_ Hlook]];
          [apply andb_negb_r|]).
  by rewrite lookup_empty in Hlook.
Qed.

Lemma rows_zip {text : Py.Text} (P : CrossReferenceRow.t → CrossReferenceRow.t → Prop)
    (ra rb ra' rb' : gmap string CheckStatus.t)
    (ps : list StatutoryProvision.t) (rows rows' : list CrossReferenceRow.t) :
  (∀ p row row', cross_reference_row ra rb p = Some row →
                 cross_reference_row ra' rb' p = Some row' → P row row') →
  Forall2 (fun p row => cross_reference_row ra rb p = Some row) ps rows →
  Forall2 (fun p row => cross_reference_row ra' rb' p = Some row) ps rows' →
  Forall2 P rows rows'.
Proof.
  intros HP H. revert rows'. induction H as [|p row ps rows Hrow _ IH];
    intros rows' H'; inversion H' as [|? row' ? rows'' Hrow' Hrest]; subst;
    constructor; eauto.
Qed.

(** X12: swapping the two documents mirrors the matrix: row by row the
    label is the same, the two per-document results change sides, and
    [discrepancies] is "None" for one order exactly when it is for the
    other.  The HIGH and LOW defects are the same up to order, and the
    number of MEDIUM defects is unchanged. *)
Theorem swapping_documents {text : Py.Text} (doc_a doc_b : DocumentProfile.t) :
  ∃ report report',
    build_phase_b_report doc_a doc_b = Some report ∧
    build_phase_b_report doc_b doc_a = Some report' ∧
    Forall2
      (fun row row' =>
         CrossReferenceRow.statutory_provision row' =
           CrossReferenceRow.statutory_provision row ∧
         CrossReferenceRow.doc_a row' = CrossReferenceRow.doc_b row ∧
         CrossReferenceRow.doc_b row' = CrossReferenceRow.doc_a row ∧
         (CrossReferenceRow.discrepancies row' = "None" ↔
          CrossReferenceRow.discrepancies row = "None"))
      (PhaseBReport.cross_reference_matrix report)
      (PhaseBReport.cross_reference_matrix report') ∧
    DefectReport.high (PhaseBReport.defects report') ≡ₚ
      DefectReport.high (PhaseBReport.defects report) ∧
    DefectReport.low (PhaseBReport.defects report') ≡ₚ
      DefectReport.low (PhaseBReport.defects report) ∧
    length (DefectReport.medium (PhaseBReport.defects report')) =
      length (DefectReport.medium (PhaseBReport.defects report)).
Proof.
  destruct (build_phase_b_report_parts doc_a doc_b)
    as (rows & defects & Hbuild & Hdefects & Hrows).
  destruct (build_phase_b_report_parts doc_b doc_a)
    as (rows' & defects' & Hbuild' & Hdefects' & Hrows').
  eexists. eexists. split; [exact Hbuild|]. split; [exact Hbuild'|].
  cbn [PhaseBReport.cross_reference_matrix PhaseBReport.defects].
  split.
  { eapply rows_zip; [|exact Hrows|exact Hrows']. intros p row row' Hrow Hrow'.
    destruct (row_components _ _ _ _ Hrow) as (Ha & Hb & Hl).
    destruct (row_components _ _ _ _ Hrow') as (Ha' & Hb' & Hl').
    assert (CrossReferenceRow.doc_a row' = CrossReferenceRow.doc_b row) as H1
      by congruence.
    assert (CrossReferenceRow.doc_b row' = CrossReferenceRow.doc_a row) as H2
      by congruence.
    split; [congruence|]. split; [done|]. split; [done|].
    rewrite (row_discrepancies _ _ _ _ Hrow), (row_discrepancies _ _ _ _ Hrow').
    rewrite H1, H2, !summarise_discrepancies_none.
    split; intros [Hst Hx]; (split; [done|]); intros x; symmetry; apply Hx. }
  rewrite identify_defects_report in Hdefects, Hdefects'.
  injection Hdefects as <-. injection Hdefects' as <-.
  cbn [DefectReport.high DefectReport.medium DefectReport.low].
  unfold of_severity. rewrite !filter_app, !length_app.
  split; [apply Permutation_app_comm|]. split; [apply Permutation_app_comm|].
  assert (shared_dates doc_b doc_a = shared_dates doc_a doc_b) as ->.
  { unfold shared_dates. apply (comm_L (∩)). }
  rewrite (date_defects_for_swap_length doc_b doc_a). lia.
Qed.

(** ** The omissions report *)

Lemma normalised_elem_of {text : Py.Text} (items : list string) (x : string) :
  x ∈ DocumentProfile.normalised items ↔ normal_form_in items x.
Proof.
  unfold DocumentProfile.normalised, Py.set_of, normal_form_in.
  rewrite elem_of_list_to_set, mapped_filter_elem_of.
  split; intros (item & Hin & H1 & H2); exists item.
  - by rewrite str_truthy_true in H2.
  - by rewrite str_truthy_true.
Qed.

(** X13: each only-in-A list of the omissions report is in ascending order
    without repetition and holds exactly what document A has and document B
    lacks: material-element labels for the first list; for statutory
    references, facts and procedural steps, the trimmed lower-cased forms of
    A's non-blank entries that are not the form of any entry of B.  Nothing
    is listed for both orders of the two documents. *)
Theorem omissions_only_in_a {text : Py.Text} (doc_a doc_b : DocumentProfile.t) :
  let o := _omissions doc_a doc_b in
  let o' := _omissions doc_b doc_a in
  let exact (listed listed' : list string) (in_a in_b : string → Prop) :=
    StronglySorted String.le listed ∧ NoDup listed ∧
    (∀ x, x ∈ listed ↔ in_a x ∧ ¬ in_b x) ∧
    (∀ x, x ∈ listed → x ∉ listed') in
  exact (OmissionsReport.elements_only_in_a o) (OmissionsReport.elements_only_in_a o')
    (fun x => x ∈ DocumentProfile.material_elements doc_a)
    (fun x => x ∈ DocumentProfile.material_elements doc_b) ∧
  exact (OmissionsReport.statutory_refs_only_in_a o)
    (OmissionsReport.statutory_refs_only_in_a o')
    (normal_form_in (DocumentProfile.statutory_references doc_a))
    (normal_form_in (DocumentProfile.statutory_references doc_b)) ∧
  exact (OmissionsReport.facts_only_in_a o) (OmissionsReport.facts_only_in_a o')
    (normal_form_in (DocumentProfile.facts doc_a))
    (normal_form_in (DocumentProfile.facts doc_b)) ∧
  exact (OmissionsReport.procedures_only_in_a o) (OmissionsReport.procedures_only_in_a o')
    (normal_form_in (DocumentProfile.procedural_steps doc_a))
    (normal_form_in (DocumentProfile.procedural_steps doc_b)).
Proof.
  intros o o' exact.
  assert (∀ (sa sb : gset string) (in_a in_b : string → Prop),
            (∀ x, x ∈ sa ↔ in_a x) → (∀ x, x ∈ sb ↔ in_b x) →
            exact (Py.sorted (sa ∖ sb)) (Py.sorted (sb ∖ sa)) in_a in_b) as Hexact.
  { intros sa sb in_a in_b Ha Hb. subst exact. simpl.
    split; [apply sorted_StronglySorted|]. split; [apply sorted_NoDup|]. split.
    - intros x. by rewrite sorted_elem_of, elem_of_difference, Ha, Hb.
    - intros x. rewrite !sorted_elem_of, !elem_of_difference. tauto. }
  subst o o'. unfold _omissions.
  cbn [OmissionsReport.elements_only_in_a OmissionsReport.statutory_refs_only_in_a
       OmissionsReport.facts_only_in_a OmissionsReport.procedures_only_in_a].
  split; [|split; [|split]]; apply Hexact; try done;
    intros x; apply normalised_elem_of.
Qed.

(** X14: the targeted omissions are a mapping with exactly the five probe
    names; a probe is true exactly when its condition holds for document A
    and fails for document B, so no probe is true for both orders of the two
    documents. *)
Theorem targeted_omission_probes {text : Py.Text} (doc_a doc_b : DocumentProfile.t) :
  let t := OmissionsReport.targeted_omissions (_omissions doc_a doc_b) in
  let t' := OmissionsReport.targeted_omissions (_omissions doc_b doc_a) in
  let pa := DocumentProfile.preliminary_test doc_a in
  let pb := DocumentProfile.preliminary_test doc_b in
  let only_a (probe : string) (holds : PreliminaryTestRecord.t → Prop) :=
    t !! probe = Some true ↔ holds pa ∧ ¬ holds pb in
  dom t = list_to_set probe_names ∧
  only_a "s55d_in_accordance_language"
    (fun p => PreliminaryTestRecord.directions_compliance_language p = true) ∧
  only_a "s49_reason_to_believe"
    (fun p => holds_text (PreliminaryTestRecord.reason_to_believe_detail p)) ∧
  only_a "s55e_device_approval_number"
    (fun p => Py.opt_str_truthy (PreliminaryTestRecord.device_approval_number p) = true) ∧
  only_a "s55e_calibration_records"
    (fun p => PreliminaryTestRecord.calibration_records p ≠ [] ∨
              PreliminaryTestRecord.maintenance_records p ≠ []) ∧
  only_a "test_vs_drive_time_alignment" both_times_recorded ∧
  ∀ probe, ¬ (t !! probe = Some true ∧ t' !! probe = Some true).
Proof.
  intros t t' pa pb only_a.
  assert (∀ (ca cb : bool) (Pa Pb : Prop),
            (ca = true ↔ Pa) → (cb = true ↔ Pb) →
            (Some (ca && negb cb) = Some true ↔ Pa ∧ ¬ Pb)) as Hprobe.
  { intros ca cb Pa Pb Ha Hb. destruct ca, cb; simpl; intuition congruence. }
  assert (∀ p, PreliminaryTestRecord.calibration_complete p = true ↔
               PreliminaryTestRecord.calibration_records p ≠ [] ∨
               PreliminaryTestRecord.maintenance_records p ≠ []) as Hcal.
  { intros p. unfold PreliminaryTestRecord.calibration_complete.
    destruct (PreliminaryTestRecord.calibration_records p),
      (PreliminaryTestRecord.maintenance_records p); simpl; intuition congruence. }
  assert (∀ ca cb : bool, ca && negb cb = true → cb && negb ca = true → False)
    as Hasym by (by intros [] []).
  subst t t' only_a. unfold _omissions, _targeted_omission.
  cbn [OmissionsReport.targeted_omissions]. fold pa pb.
  split; [|split; [|split; [|split; [|split; [|split]]]]].
  - rewrite !dom_insert_L, dom_empty_L. unfold probe_names. simpl.
    apply set_eq. intros x. rewrite !elem_of_union, !elem_of_singleton.
    rewrite elem_of_empty. tauto.
  - rewrite !lookup_insert_ne, lookup_insert_eq by done. by apply Hprobe.
  - rewrite !lookup_insert_ne, lookup_insert_eq by done.
    apply Hprobe; apply nonblank_holds_text.
  - rewrite !lookup_insert_ne, lookup_insert_eq by done. by apply Hprobe.
  - rewrite !lookup_insert_ne, lookup_insert_eq by done. apply Hprobe; apply Hcal.
  - rewrite lookup_insert_eq. apply Hprobe; unfold both_times_recorded;
      apply andb_true_iff.
  - intros probe [H H'].
    repeat (apply lookup_insert_Some in H as [[<- H]|[? H]];
            [repeat (rewrite lookup_insert_ne in H' by done);
             rewrite lookup_insert_eq in H';
             injection H' as H'; exact (Hasym _ _ H H')|]).
    by rewrite lookup_empty in H.
Qed.

(** ** Material elements against evaluations *)

Lemma material_element_listed {text : Py.Text} (document : DocumentProfile.t) (x : string) :
  let p := DocumentProfile.preliminary_test document in
  let d := DocumentProfile.disclosure document in
  x ∈ DocumentProfile.material_elements document ↔
  (PreliminaryTestRecord.has_statutory_authority p = true ∧
   x = "statutory authority recorded") ∨
  (PreliminaryTestRecord.has_reason_to_believe p = true ∧
   x = "reason to believe documented") ∨
  (PreliminaryTestRecord.directions_compliance_language p = true ∧
   x = "55D directions language") ∨
  (PreliminaryTestRecord.directions_documented p = true ∧ x = "directions recorded") ∨
  (PreliminaryTestRecord.oral_directions_documented p = true ∧
   x = "oral directions given") ∨
  (PreliminaryTestRecord.has_proper_performance_indicators p = true ∧
   x = "proper performance indicators") ∨
  (Py.opt_str_truthy (PreliminaryTestRecord.device_approval_number p) = true ∧
   x = "device approval number") ∨
  (PreliminaryTestRecord.calibration_complete p = true ∧ x = "calibration records") ∨
  (Py.opt_str_truthy (PreliminaryTestRecord.test_time p) = true ∧
   x = "test time recorded") ∨
  (Py.opt_str_truthy (PreliminaryTestRecord.driving_time p) = true ∧
   x = "driving time recorded") ∨
  (negb (Py.list_truthy (DisclosurePackage.missing_mandatory_items d)) = true ∧
   x = "mandatory disclosure complete") ∨
  (negb (Py.list_truthy (DisclosurePackage.unsigned_or_undated_statements d)) = true ∧
   x = "statements signed and dated") ∨
  (DisclosurePackage.exhibits_identified d = true ∧ x = "exhibits identified") ∨
  (DisclosurePackage.exhibit_descriptions_complete d = true ∧
   x = "exhibit descriptions complete") ∨
  (negb (Py.list_truthy
           (EvidenceProfile.hearsay_without_exception
              (DocumentProfile.evidence document))) = true ∧
   x = "hearsay exceptions satisfied").
Proof.
  intros p d. unfold DocumentProfile.material_elements, Py.set_of. fold p d.
  rewrite elem_of_list_to_set, !elem_of_app, !elem_of_if_singleton. tauto.
Qed.

Ltac element_cases H :=
  let H1 := fresh "Hcond" in
  let H2 := fresh "Hlabel" in
  repeat (destruct H as [[H1 H2]|H]; [first [discriminate H2 | discriminate H1]|]);
  destruct H as [H1 H2]; first [discriminate H2 | discriminate H1].

Ltac element_pick :=
  first [left; split; reflexivity | right; element_pick | split; reflexivity].

(** X15: the material elements follow the evaluations.  "mandatory
    disclosure complete", "reason to believe documented" and "hearsay
    exceptions satisfied" are listed exactly when CPA_DISCLOSURE, RSA_REASON
    and EA_60_69 are COMPLIANT.  "statements signed and dated" and
    "statutory authority recorded" are listed exactly when CPA_STATEMENTS
    and RSA_AUTHORITY are not NON_COMPLIANT: a document with no witness
    statement, or with an ambiguous authority, is UNCLEAR yet has the
    element. *)
Theorem material_elements_follow_evaluations {text : Py.Text} (document : DocumentProfile.t) :
  let elements := DocumentProfile.material_elements document in
  ("mandatory disclosure complete" ∈ elements ↔
   CheckStatus.status (_disclosure_items document) = COMPLIANT) ∧
  ("reason to believe documented" ∈ elements ↔
   CheckStatus.status (_reason_to_believe document) = COMPLIANT) ∧
  ("hearsay exceptions satisfied" ∈ elements ↔
   CheckStatus.status (_hearsay_exceptions document) = COMPLIANT) ∧
  ("statements signed and dated" ∈ elements ↔
   CheckStatus.status (_statement_execution document) ≠ NON_COMPLIANT) ∧
  ("statutory authority recorded" ∈ elements ↔
   CheckStatus.status (_statutory_authority document) ≠ NON_COMPLIANT).
Proof.
  intros elements. subst elements.
  rewrite !material_element_listed.
  split; [|split; [|split; [|split]]].
  - unfold _disclosure_items.
    destruct (Py.list_truthy (DisclosurePackage.missing_mandatory_items _)); simpl.
    + split; [intros H; exfalso; element_cases H|intros [=]].
    + split; [done|intros _; element_pick].
  - unfold _reason_to_believe.
    destruct (PreliminaryTestRecord.has_reason_to_believe _); simpl.
    + split; [done|intros _; element_pick].
    + split; [intros H; exfalso; element_cases H|intros [=]].
  - unfold _hearsay_exceptions.
    destruct (Py.list_truthy (EvidenceProfile.hearsay_without_exception _)); simpl.
    + split; [intros H; exfalso; element_cases H|intros [=]].
    + split; [intros _; by destruct (Py.list_truthy _)|intros _; element_pick].
  - unfold _statement_execution.
    destruct (Py.list_truthy (DisclosurePackage.unsigned_or_undated_statements _));
      simpl.
    + split; [intros H; exfalso; element_cases H|intros Hne; by destruct Hne].
    + split; [intros _; by destruct (negb _)|intros _; element_pick].
  - unfold _statutory_authority.
    destruct (PreliminaryTestRecord.has_statutory_authority _); simpl.
    + split; [intros _; by destruct (PreliminaryTestRecord.authority_is_ambiguous _)|].
      intros _. element_pick.
    + split; [intros H; exfalso; element_cases H|].
      rewrite andb_false_r. intros Hne. by destruct Hne.
Qed.

(** ** Vague temporal references *)

Lemma prefix_spec (needle hay : string) :
  String.prefix needle hay = true ↔ ∃ post, hay = needle +:+ post.
Proof.
  revert hay. induction needle as [|a needle IH]; intros hay.
  - destruct hay; simpl; split; eauto.
  - destruct hay as [|b hay]; simpl.
    + split; [done|]. by intros [post Hpost].
    + destruct (ascii_dec a b) as [->|Hne].
      * rewrite IH. split; intros [post Hpost]; exists post.
        -- by rewrite append_cons, <- Hpost.
        -- rewrite append_cons in Hpost. by injection Hpost.
      * split; [done|]. intros [post Hpost]. rewrite append_cons in Hpost.
        injection Hpost as Hab _. congruence.
Qed.

Lemma contains_spec (needle hay : string) :
  Py.contains needle hay = true ↔ ∃ pre post, hay = pre +:+ needle +:+ post.
Proof.
  induction hay as [|c hay IH].
  - cbn [Py.contains]. rewrite orb_false_r, prefix_spec. split.
    + intros [post Hpost]. by exists EmptyString, post.
    + intros (pre & post & H). destruct pre as [|? ?]; [by exists post|done].
  - cbn [Py.contains]. rewrite orb_true_iff, prefix_spec, IH. split.
    + intros [[post Hpost]|(pre & post & Hpost)].
      * by exists EmptyString, post.
      * exists (String c pre), post. by rewrite append_cons, <- Hpost.
    + intros (pre & post & H). destruct pre as [|c' pre].
      * left. by exists post.
      * right. rewrite append_cons in H. injection H as _ H. by exists pre, post.
Qed.

Lemma append_empty_inv (s t : string) : s +:+ t = EmptyString → s = EmptyString.
Proof. by destruct s. Qed.

(** X17: vague temporal references are detected exactly when a
    time-reference note is recorded, or the test time or the driving time,
    once lower-cased, has one of the tokens approx, about, circa, unknown,
    around as a substring; so the check ignores case, and absent or empty
    times never trigger it. *)
Theorem vague_temporal_references {text : Py.Text} (p : PreliminaryTestRecord.t) :
  _detect_vague_temporal_references p = true ↔
  PreliminaryTestRecord.time_reference_notes p ≠ [] ∨
  ∃ time token pre post,
    (PreliminaryTestRecord.test_time p = Some time ∨
     PreliminaryTestRecord.driving_time p = Some time) ∧
    token ∈ vague_tokens ∧
    Py.lower time = pre +:+ token +:+ post.
Proof.
  unfold _detect_vague_temporal_references.
  set (candidates := omap _ _).
  assert (∀ e, In e candidates ↔
               (PreliminaryTestRecord.test_time p = Some e ∨
                PreliminaryTestRecord.driving_time p = Some e) ∧ e ≠ EmptyString)
    as Hcand.
  { intros e. subst candidates.
    destruct (PreliminaryTestRecord.test_time p) as [[|c1 t1]|],
      (PreliminaryTestRecord.driving_time p) as [[|c2 t2]|]; simpl;
      intuition congruence. }
  assert (∀ token, token ∈ vague_tokens → token ≠ EmptyString) as Htoken.
  { intros token Ht. unfold vague_tokens in Ht.
    repeat (apply elem_of_cons in Ht as [->|Ht]; [done|]). by apply elem_of_nil in Ht. }
  assert (existsb
            (fun entry =>
               let lowered := Py.lower entry in
               Py.any (fun token => Py.contains token lowered) vague_tokens)
            candidates = true ↔
          ∃ time token pre post,
            (PreliminaryTestRecord.test_time p = Some time ∨
             PreliminaryTestRecord.driving_time p = Some time) ∧
            token ∈ vague_tokens ∧
            Py.lower time = pre +:+ token +:+ post) as Hex.
  { rewrite existsb_exists. split.
    - intros (time & Hin & Hany). apply Hcand in Hin as [Hin _].
      unfold Py.any in Hany. apply existsb_exists in Hany as (token & Ht & Hc).
      apply contains_spec in Hc as (pre & post & Hc).
      exists time, token, pre, post. by rewrite list_elem_of_In.
    - intros (time & token & pre & post & Hin & Ht & Hc).
      exists time. split.
      + apply Hcand. split; [done|]. intros ->. rewrite Py.lower_empty in Hc.
        destruct pre; [|done]. symmetry in Hc.
        change (token +:+ post = EmptyString) in Hc.
        apply append_empty_inv in Hc. by apply Htoken in Ht.
      + unfold Py.any. apply existsb_exists. exists token.
        split; [by apply list_elem_of_In|]. apply contains_spec. eauto. }
  destruct (existsb _ candidates).
  - split; [|done]. intros _. right. by apply Hex.
  - rewrite list_truthy_true. split; [by left|].
    intros [H|H]; [done|]. by apply Hex in H.
Qed.

(** * Further properties of the Magistrates' Court checklists *)

Lemma missing_elem_of (data : gmap string bool)
    (items : list court_knowledge.ChecklistItem.t)
    (item : court_knowledge.ChecklistItem.t) :
  item ∈ List.filter (court_knowledge.not_provided data) items ↔
  item ∈ items ∧ is_missing data item.
Proof. apply missing_items_spec. Qed.

Lemma missing_sublist (data : gmap string bool)
    (items : list court_knowledge.ChecklistItem.t) :
  List.filter (court_knowledge.not_provided data) items `sublist_of` items.
Proof.
  induction items as [|item items IH]; simpl; [done|].
  destruct (court_knowledge.not_provided data item);
    [by apply sublist_skip|by apply sublist_cons].
Qed.

Lemma missing_nil (data : gmap string bool)
    (items : list court_knowledge.ChecklistItem.t) :
  List.filter (court_knowledge.not_provided data) items = [] ↔
  ∀ item, item ∈ items → data !! court_knowledge.ChecklistItem.key item = Some true.
Proof.
  induction items as [|item items IH]; simpl.
  - split; [|done]. intros _ item Hin. by apply elem_of_nil in Hin.
  - unfold court_knowledge.not_provided at 1.
    destruct (data !! court_knowledge.ChecklistItem.key item) as [[]|] eqn:Hk; simpl.
    + rewrite IH. split.
      * intros Hall x Hx. apply elem_of_cons in Hx as [->|Hx]; [done|]. by apply Hall.
      * intros Hall x Hx. apply Hall. by right.
    + split; [done|]. intros Hall.
      specialize (Hall item ltac:(by left)). congruence.
    + split; [done|]. intros Hall.
      specialize (Hall item ltac:(by left)). congruence.
Qed.

Lemma missing_empty_data (items : list court_knowledge.ChecklistItem.t) :
  List.filter (court_knowledge.not_provided ∅) items = items.
Proof.
  induction items as [|item items IH]; simpl; [done|].
  unfold court_knowledge.not_provided at 1. rewrite lookup_empty. simpl.
  by rewrite IH.
Qed.

Lemma missing_monotone (data data' : gmap string bool)
    (items : list court_knowledge.ChecklistItem.t) :
  (∀ key, data !! key = Some true → data' !! key = Some true) →
  List.filter (court_knowledge.not_provided data') items `sublist_of`
  List.filter (court_knowledge.not_provided data) items.
Proof.
  intros Hmore. induction items as [|item items IH]; simpl; [done|].
  destruct (court_knowledge.not_provided data' item) eqn:H'.
  - assert (court_knowledge.not_provided data item = true) as ->.
    { unfold court_knowledge.not_provided in *.
      destruct (data !! court_knowledge.ChecklistItem.key item) as [[]|] eqn:Hk;
        [|done..]. by rewrite (Hmore _ Hk) in H'. }
    by apply sublist_skip.
  - destruct (court_knowledge.not_provided data item); [by apply sublist_cons|done].
Qed.

(** X18: for any Road Safety Act checklist and any data mapping, the
    preliminary and the evidentiary evaluation each return, in checklist
    order, exactly the items whose key the data does not map to True: all
    items for an empty mapping, none exactly when every key is mapped to
    True; marking more keys True never adds a missing item. *)
Theorem road_safety_checklist_missing
    (self : court_knowledge.RoadSafetyActChecklist.t) (data : gmap string bool) :
  let exact (evaluate : gmap string bool → list court_knowledge.ChecklistItem.t)
            (items : list court_knowledge.ChecklistItem.t) :=
    evaluate data `sublist_of` items ∧
    (∀ item, item ∈ evaluate data ↔ item ∈ items ∧ is_missing data item) ∧
    (evaluate data = [] ↔
     ∀ item, item ∈ items →
             data !! court_knowledge.ChecklistItem.key item = Some true) ∧
    evaluate ∅ = items ∧
    (∀ data', (∀ key, data !! key = Some true → data' !! key = Some true) →
              evaluate data' `sublist_of` evaluate data) in
  exact (court_knowledge.RoadSafetyActChecklist.evaluate_preliminary self)
    (court_knowledge.RoadSafetyActChecklist.preliminary_items self) ∧
  exact (court_knowledge.RoadSafetyActChecklist.evaluate_evidentiary self)
    (court_knowledge.RoadSafetyActChecklist.evidentiary_items self).
Proof.
  intros exact. subst exact. simpl.
  unfold court_knowledge.RoadSafetyActChecklist.evaluate_preliminary,
    court_knowledge.RoadSafetyActChecklist.evaluate_evidentiary.
  split; (split; [apply missing_sublist|]; split; [apply missing_elem_of|];
          split; [apply missing_nil|]; split; [apply missing_empty_data|];
          intros data'; apply missing_monotone).
Qed.

(** X19: for any checker and any case data, [build_report] has one entry
    per stage of the checker, and its entry for a stage is what
    [evaluate_stage] returns for that stage with the stage's data, a stage
    absent from the case data being read as having nothing provided; for a
    name that is not a stage the report has no entry and [evaluate_stage]
    raises [KeyError]. *)
Theorem build_report_agrees_with_evaluate_stage
    (self : court_knowledge.MagistratesCourtProcedureChecker.t)
    (case_data : gmap string (gmap string bool)) (name : string) :
  let report :=
    court_knowledge.MagistratesCourtProcedureChecker.build_report self case_data in
  dom report = dom (court_knowledge.MagistratesCourtProcedureChecker.stages self) ∧
  court_knowledge.MagistratesCourtProcedureChecker.evaluate_stage self name
    (default ∅ (case_data !! name)) =
  match report !! name with
  | Some missing => inr missing
  | None => inl (court_knowledge.KeyError ("Unknown procedure stage: " +:+ name))
  end.
Proof.
  intros report. subst report.
  unfold court_knowledge.MagistratesCourtProcedureChecker.build_report. split.
  - apply set_eq. intros k. rewrite !elem_of_dom, map_lookup_imap.
    destruct (court_knowledge.MagistratesCourtProcedureChecker.stages self !! k);
      simpl; [|done]. split; intros _; eauto.
  - rewrite map_lookup_imap.
    unfold court_knowledge.MagistratesCourtProcedureChecker.evaluate_stage.
    case_bool_decide as Hd.
    + apply not_elem_of_dom in Hd. by rewrite Hd.
    + apply elem_of_dom in Hd as [stage Hst]. by rewrite Hst.
Qed.

(** ** The outcome log *)

Lemma tally_count_outcome (summary : gmap string (gmap string nat))
    (outcome : court_knowledge.Outcome.t) (defect result : string) :
  tally (court_knowledge.OutcomeTracker.count_outcome summary outcome) defect result =
    if decide (court_knowledge.Outcome.defect_type outcome = defect ∧
               court_knowledge.Outcome.result outcome = result)
    then Some (default 0 (tally summary defect result) + 1)
    else tally summary defect result.
Proof.
  unfold tally, court_knowledge.OutcomeTracker.count_outcome.
  destruct (decide (court_knowledge.Outcome.defect_type outcome = defect)) as [<-|Hd].
  - rewrite lookup_insert_eq. simpl.
    destruct (decide (court_knowledge.Outcome.result outcome = result)) as [<-|Hr].
    + rewrite lookup_insert_eq, decide_True by done.
      by destruct (summary !! _).
    + rewrite lookup_insert_ne, decide_False by tauto.
      by destruct (summary !! _).
  - rewrite lookup_insert_ne, decide_False by tauto. done.
Qed.

Lemma tally_fold (file : list court_knowledge.Outcome.t)
    (summary : gmap string (gmap string nat)) (defect result : string) :
  tally (foldl court_knowledge.OutcomeTracker.count_outcome summary file) defect result =
    match length (outcomes_with defect result file) with
    | 0 => tally summary defect result
    | S n => Some (default 0 (tally summary defect result) + S n)
    end.
Proof.
  revert summary. induction file as [|o file IH]; intros summary; [done|].
  simpl. rewrite IH, tally_count_outcome. unfold outcomes_with.
  rewrite filter_cons. case_decide; simpl.
  - destruct (length (filter _ file)); simpl; f_equal; lia.
  - done.
Qed.

(** X20: the summary of an outcome log holds, for every defect type and
    result, the number of logged outcomes with that defect type and result,
    and no entry at all when there is none. *)
Theorem summarise_results_counts (file : list court_knowledge.Outcome.t)
    (defect result : string) :
  let n := length (outcomes_with defect result file) in
  tally (court_knowledge.OutcomeTracker.summarise_results file) defect result =
    if decide (n = 0) then None else Some n.
Proof.
  unfold court_knowledge.OutcomeTracker.summarise_results,
    court_knowledge.OutcomeTracker._read_outcomes.
  rewrite tally_fold. simpl.
  destruct (length (outcomes_with defect result file)); [done|].
  unfold tally. rewrite lookup_empty. simpl. done.
Qed.

(** X21: recording an outcome only appends to the log: the former entries
    stay in place, the new entry comes last among the outcomes of its defect
    type, the outcomes of every other defect type are unchanged, and the
    summary count for its defect type and result goes up by one.  Omitted
    argument lists are stored as empty lists and the time stamp is the clock
    value read. *)
Theorem record_outcome_appends (file : list court_knowledge.Outcome.t)
    (now defect result : string)
    (arguments_accepted arguments_rejected : option (list string))
    (judicial_response remediation_strategy notes : option string) :
  let recorded :=
    court_knowledge.OutcomeTracker.record_outcome file now defect result
      arguments_accepted arguments_rejected judicial_response remediation_strategy
      notes in
  let file' := recorded.1 in
  let entry := recorded.2 in
  file `prefix_of` file' ∧
  length file' = S (length file) ∧
  court_knowledge.OutcomeTracker.get_outcomes_for_defect file' defect =
    court_knowledge.OutcomeTracker.get_outcomes_for_defect file defect ++ [entry] ∧
  (∀ other, other ≠ defect →
     court_knowledge.OutcomeTracker.get_outcomes_for_defect file' other =
     court_knowledge.OutcomeTracker.get_outcomes_for_defect file other) ∧
  tally (court_knowledge.OutcomeTracker.summarise_results file') defect result =
    Some (S (length (outcomes_with defect result file))) ∧
  court_knowledge.Outcome.timestamp entry = now ∧
  (arguments_accepted = None → court_knowledge.Outcome.arguments_accepted entry = []) ∧
  (arguments_rejected = None → court_knowledge.Outcome.arguments_rejected entry = []).
Proof.
  intros recorded file' entry. subst recorded file' entry.
  unfold court_knowledge.OutcomeTracker.record_outcome,
    court_knowledge.OutcomeTracker.get_outcomes_for_defect,
    court_knowledge.OutcomeTracker.summarise_results,
    court_knowledge.OutcomeTracker._read_outcomes,
    court_knowledge.OutcomeTracker._write_outcomes.
  cbn [fst snd].
  split; [by eexists|]. split; [rewrite length_app; simpl; lia|].
  split; [|split; [|split; [|split; [|split]]]].
  - rewrite List.filter_app. simpl. by rewrite bool_decide_eq_true_2.
  - intros other Hne. rewrite List.filter_app. simpl.
    rewrite bool_decide_eq_false_2 by done. by rewrite app_nil_r.
  - rewrite tally_fold. unfold outcomes_with. rewrite filter_app, length_app.
    rewrite filter_cons, decide_True by done. simpl.
    unfold tally. rewrite lookup_empty. simpl.
    destruct (length (filter _ file) + 1) eqn:Hn; [lia|]. f_equal. lia.
  - done.
  - by intros ->.
  - by intros ->.
Qed.

Lemma record_outcome_appends_witness :
  court_knowledge.Outcome.arguments_rejected
    (court_knowledge.OutcomeTracker.record_outcome
       (court_knowledge.OutcomeTracker.__init__ None) "2024-06-01T00:00:00+00:00"
       "Category B - Procedural Defects" "exclusion_granted"
       (Some ["s.55D non-compliance"]) None None None None).2 = [].
Proof.
  apply (record_outcome_appends (court_knowledge.OutcomeTracker.__init__ None)).
  reflexivity.
Defined.

(** * What the evaluation does not read *)

(** X22: the per-document evaluation reads only the disclosure package,
    the preliminary-test record and the evidence profile: two documents that
    agree on these three get the same fifteen results, whatever their names,
    statutory references, facts, procedural steps, key dates and issue
    lists. *)
Theorem evaluation_reads_three_profiles {text : Py.Text} (doc doc' : DocumentProfile.t) :
  DocumentProfile.disclosure doc = DocumentProfile.disclosure doc' →
  DocumentProfile.preliminary_test doc = DocumentProfile.preliminary_test doc' →
  DocumentProfile.evidence doc = DocumentProfile.evidence doc' →
  _evaluate_document doc = _evaluate_document doc'.
Proof.
  intros Hd Hp He. apply map_eq. intros key.
  rewrite !evaluate_document_lookup.
  destruct (List.find _ PROVISIONS) as [p|] eqn:Hfind; [|done]. simpl. f_equal.
  apply find_some in Hfind as [Hin _]. apply list_elem_of_In in Hin.
  unfold PROVISIONS in Hin.
  repeat (apply elem_of_cons in Hin as [->|Hin]); [..|by apply elem_of_nil in Hin];
    cbn [StatutoryProvision.checker];
    unfold _disclosure_items, _statement_execution, _disclosure_timing,
      _exhibit_identification, _statutory_authority, _reason_to_believe,
      _directions_language, _oral_directions, _proper_performance,
      _evidentiary_test, _hearsay_flagged, _hearsay_exceptions, _business_records,
      _section_137, _section_138;
    by rewrite ?Hd, ?Hp, ?He.
Qed.

Section ascii_documents_10.
#[local] Existing Instance Py.ascii_text.

Lemma evaluation_reads_three_profiles_witness :
  _evaluate_document fixtures.overlap_a = _evaluate_document fixtures.doc_a.
Proof.
  apply (evaluation_reads_three_profiles fixtures.overlap_a fixtures.doc_a);
    reflexivity.
Defined.

End ascii_documents_10.
